(** * Amazon product scrapers: field extraction over a queried document

    A shallow embedding of the two open-source scripts
    [amazon_scraper_requests_beautifulsoup.py] and
    [amazon_scraper_playwright.py].

    Text is modelled over the code points 0..255 ([ascii]); on that range
    the character classes below are the ones Python's [str] methods and
    the [re] module use for [str] patterns.  CSS selection, the HTML
    parser, the HTTP client and the browser are libraries outside the
    repository: a document is what its selector queries return. *)

From Stdlib Require Import String Ascii List Bool Arith Lia.
Import ListNotations.
Open Scope string_scope.

(** ** The Python operations the scripts call *)

Module Py.

Definition between (lo hi : nat) (c : ascii) : bool :=
  let n := nat_of_ascii c in ((lo <=? n) && (n <=? hi))%nat.

(** [\d] *)
Definition isdigit (c : ascii) : bool := between 48 57 c.

(** [[A-Z]] *)
Definition isupper_az (c : ascii) : bool := between 65 90 c.

(** [str.isspace] on one character, also the class [\s]. *)
Definition isspace (c : ascii) : bool :=
  between 9 13 c || between 28 32 c
  || (nat_of_ascii c =? 133)%nat || (nat_of_ascii c =? 160)%nat.

Definition lower_char (c : ascii) : ascii :=
  if between 65 90 c
     || (between 192 222 c && negb (nat_of_ascii c =? 215)%nat)
  then ascii_of_nat (nat_of_ascii c + 32)
  else c.

(** [s.lower()] *)
Fixpoint lower (s : string) : string :=
  match s with
  | EmptyString => EmptyString
  | String c s' => String (lower_char c) (lower s')
  end.

Fixpoint lstrip (s : string) : string :=
  match s with
  | EmptyString => EmptyString
  | String c s' => if isspace c then lstrip s' else s
  end.

Fixpoint rstrip (s : string) : string :=
  match s with
  | EmptyString => EmptyString
  | String c s' =>
      match rstrip s' with
      | EmptyString => if isspace c then EmptyString else String c EmptyString
      | r => String c r
      end
  end.

(** [s.strip()] *)
Definition strip (s : string) : string := rstrip (lstrip s).

(** [s.startswith(p)] *)
Definition startswith (s p : string) : bool := String.prefix p s.

(** [k in s] for strings *)
Fixpoint contains (k s : string) : bool :=
  String.prefix k s ||
  match s with
  | EmptyString => false
  | String _ s' => contains k s'
  end.

(** [s.replace(old, new)] for a one-character [old]. *)
Fixpoint replace (old : ascii) (new : string) (s : string) : string :=
  match s with
  | EmptyString => EmptyString
  | String c s' =>
      if Ascii.eqb c old then new ++ replace old new s'
      else String c (replace old new s')
  end.

(** [sep.join(parts)] *)
Definition join (sep : string) (parts : list string) : string :=
  String.concat sep parts.

(** truthiness of a [str]: [if s:] *)
Definition truthy (s : string) : bool :=
  match s with EmptyString => false | _ => true end.

(** truthiness of an [Optional[str]]: [if x:] *)
Definition truthy_opt (x : option string) : bool :=
  match x with Some s => truthy s | None => false end.

(** [a or b] on [Optional[str]] values *)
Definition or_ (a b : option string) : option string :=
  if truthy_opt a then a else b.

(** [x in l] for a list of strings *)
Definition mem (x : string) (l : list string) : bool :=
  existsb (String.eqb x) l.

Fixpoint drop (n : nat) (s : string) : string :=
  match n, s with
  | S n', String _ s' => drop n' s'
  | _, _ => s
  end.

Fixpoint all (f : ascii -> bool) (s : string) : bool :=
  match s with
  | EmptyString => true
  | String c s' => f c && all f s'
  end.

(** *** The fragment of [re] the scripts use

    The three patterns are sequences of one-character classes, each
    with a greedy quantifier, and group parentheses around a run of
    them.  Matching backtracks as Python's engine does: a quantified
    class first takes as many characters as it can and gives them back
    one at a time while the rest of the pattern fails. *)
Module re.

Inductive quant := One | Opt | Star | Plus.

Inductive item :=
| Atom (cls : ascii -> bool) (q : quant)
| Mark.                       (* a group parenthesis *)

Definition pattern := list item.

Definition lit (c : ascii) : item := Atom (Ascii.eqb c) One.

Fixpoint lits (s : string) : pattern :=
  match s with
  | EmptyString => []
  | String c s' => lit c :: lits s'
  end.

Section Backtracking.
Context {R : Type}.

Definition one (cls : ascii -> bool) (k : string -> option R)
           (s : string) : option R :=
  match s with
  | String c s' => if cls c then k s' else None
  | EmptyString => None
  end.

Definition opt (cls : ascii -> bool) (k : string -> option R)
           (s : string) : option R :=
  match s with
  | String c s' =>
      if cls c then
        match k s' with Some r => Some r | None => k s end
      else k s
  | EmptyString => k s
  end.

Fixpoint star (cls : ascii -> bool) (k : string -> option R)
         (s : string) : option R :=
  match s with
  | String c s' =>
      if cls c then
        match star cls k s' with Some r => Some r | None => k s end
      else k s
  | EmptyString => k s
  end.

Definition plus (cls : ascii -> bool) (k : string -> option R)
           (s : string) : option R :=
  match s with
  | String c s' => if cls c then star cls k s' else None
  | EmptyString => None
  end.
End Backtracking.

(** The text left at each group parenthesis, in pattern order, and
    the text left after the whole match. *)
Definition positions : Type := list string * string.

Fixpoint run (p : pattern) (marks : list string) (s : string)
  : option positions :=
  match p with
  | [] => Some (marks, s)
  | Mark :: p' => run p' (marks ++ [s])%list s
  | Atom cls One :: p' => one cls (run p' marks) s
  | Atom cls Opt :: p' => opt cls (run p' marks) s
  | Atom cls Star :: p' => star cls (run p' marks) s
  | Atom cls Plus :: p' => plus cls (run p' marks) s
  end.

(** A match object: the text from the start of the match on, and the
    positions reached. *)
Record Match := { m_from : string; m_pos : positions }.

(** [re.search(p, s)]: the leftmost position where [p] matches. *)
Fixpoint search (p : pattern) (s : string) : option Match :=
  match run p [] s with
  | Some pos => Some {| m_from := s; m_pos := pos |}
  | None =>
      match s with
      | EmptyString => None
      | String _ s' => search p s'
      end
  end.

Definition span (from to : string) : string :=
  substring 0 (String.length from - String.length to) from.

(** [m.group(1)] for a pattern with one group. *)
Definition group1 (m : Match) : string :=
  match fst (m_pos m) with
  | a :: b :: _ => span a b
  | _ => EmptyString
  end.

(** [re.sub(p, repl, s)] for a [repl] without back-references:
    [skip] counts the characters of the last match still to pass. *)
Fixpoint sub_from (p : pattern) (repl : string) (skip : nat)
         (s : string) : string :=
  match skip, s with
  | S n, String _ s' => sub_from p repl n s'
  | S _, EmptyString => EmptyString
  | O, EmptyString =>
      match run p [] s with Some _ => repl | None => EmptyString end
  | O, String c s' =>
      match run p [] s with
      | Some (_, rest) =>
          match String.length s - String.length rest with
          | O => repl ++ String c (sub_from p repl 0 s')
          | S n => repl ++ sub_from p repl n s'
          end
      | None => String c (sub_from p repl 0 s')
      end
  end.

Definition sub (p : pattern) (repl s : string) : string :=
  sub_from p repl 0 s.

End re.

End Py.

(** ** What both scripts share: selectors, patterns, the output record *)

Module Common.
Import Py.

Definition TARGET_URL : string :=
  "https://www.amazon.com/Logitech-Master-Bluetooth-Wireless-Receiver/dp/B0FB21526X".

(** The keys of the [SELECTORS] dictionary. *)
Inductive key :=
| title | price | avg_rating | review_count | availability | description
| features | images | category | ships_from | sold_by.

(** [SELECTORS[k]] *)
Definition SELECTORS (k : key) : string :=
  match k with
  | title => "#productTitle"
  | price => "span.a-price span.a-offscreen"
  | avg_rating => "span.a-icon-alt"
  | review_count => "#acrCustomerReviewText"
  | availability => "#availability span"
  | description => "#productDescription p"
  | features => "#feature-bullets ul li span.a-list-item"
  | images => "#imgTagWrapperId img"
  | category => "#wayfinding-breadcrumbs_feature_div ul li a"
  | ships_from => "#tabular-buybox-truncate-0 span.tabular-buybox-text"
  | sold_by => "#tabular-buybox-truncate-1 span.tabular-buybox-text"
  end.

Definition THUMBNAILS : string := "#altImages img.a-dynamic-image".

(** the pattern [( \d+ \.? \d* ) \s* out of], written item by item *)
Definition rating_pattern : re.pattern :=
  ([re.Mark; re.Atom isdigit re.Plus; re.Atom (Ascii.eqb ".") re.Opt;
    re.Atom isdigit re.Star; re.Mark; re.Atom isspace re.Star]
   ++ re.lits "out of")%list.

Definition digit_or_comma (c : ascii) : bool :=
  isdigit c || Ascii.eqb c ",".

(** the pattern [( [\d,]+ )] *)
Definition count_pattern : re.pattern :=
  [re.Mark; re.Atom digit_or_comma re.Plus; re.Mark].

(** the pattern [\. _ [A-Z]+ \d+ _ \.] *)
Definition size_pattern : re.pattern :=
  (re.lits "._" ++ [re.Atom isupper_az re.Plus; re.Atom isdigit re.Plus]
   ++ re.lits "_.")%list.

Definition LARGE : string := "._AC_SL1500_.".

(** [re.sub] of the size pattern by [LARGE] in [img_url] *)
Definition large_url (img_url : string) : string :=
  re.sub size_pattern LARGE img_url.

(** the rating out of text such as [4.5 out of 5 stars] *)
Definition rating_of_text (rating_text : string) : option string :=
  match re.search rating_pattern rating_text with
  | Some m => Some (re.group1 m)
  | None => None
  end.

(** the number out of text such as [1,234 ratings] *)
Definition count_of_text (review_text : string) : option string :=
  match re.search count_pattern review_text with
  | Some m => Some (replace "," "" (re.group1 m))
  | None => None
  end.

Definition out_of_stock_keywords : list string :=
  ["out of stock"; "unavailable"; "currently unavailable"].

(** the body of [extract_out_of_stock] once availability is known *)
Definition out_of_stock_of (availability : option string) : bool :=
  match availability with
  | Some a =>
      if truthy a then
        existsb (fun keyword => contains keyword (lower a))
                out_of_stock_keywords
      else false
  | None => false
  end.

(** [if text and len(text) > 5: features.append(text)] *)
Definition add_feature (features : list string) (text : string)
  : list string :=
  if truthy text && (5 <? String.length text)%nat
  then (features ++ [text])%list else features.

(** [if img_url and img_url.startswith('http'): images.append(img_url)] *)
Definition add_main (images : list string) (img_url : option string)
  : list string :=
  match img_url with
  | Some u =>
      if truthy u && startswith u "http" then (images ++ [u])%list
      else images
  | None => images
  end.

(** one turn of the thumbnail loop, once [thumb.get('src')] is known *)
Definition add_thumb (images : list string) (img_url : option string)
  : list string :=
  match img_url with
  | Some u =>
      if truthy u && startswith u "http" then
        let large := large_url u in
        if negb (mem large images) then (images ++ [large])%list
        else images
      else images
  | None => images
  end.

(** The values a product record holds. *)
Inductive value :=
| VNone
| VStr (s : string)
| VBool (b : bool)
| VList (l : list string).

Definition of_opt (x : option string) : value :=
  match x with Some s => VStr s | None => VNone end.

(** A Python [dict] with string keys, in insertion order. *)
Definition dict := list (string * value).

Fixpoint lookup (k : string) (d : dict) : option value :=
  match d with
  | [] => None
  | (k', v) :: d' => if String.eqb k k' then Some v else lookup k d'
  end.

Definition keys (d : dict) : list string := map fst d.

(** truthiness of a [dict]: [if d:] *)
Definition truthy_dict (d : dict) : bool :=
  match d with [] => false | _ => true end.

(** what the process leaves behind *)
Inductive printed :=
| Text (s : string)
| Json (d : dict).           (* [json.dumps(d, indent=2, ensure_ascii=False)] *)

Record std := { stdout : list printed; stderr : list string }.

Definition IO (A : Type) : Type := std -> A * std.

Definition ret {A} (a : A) : IO A := fun w => (a, w).

Definition bind {A B} (m : IO A) (f : A -> IO B) : IO B :=
  fun w => let (a, w') := m w in f a w'.

Definition print (x : printed) : IO unit :=
  fun w => (tt, {| stdout := (stdout w ++ [x])%list; stderr := stderr w |}).

Definition eprint (s : string) : IO unit :=
  fun w => (tt, {| stdout := stdout w; stderr := (stderr w ++ [s])%list |}).

Definition empty_std : std := {| stdout := []; stderr := [] |}.

(** the end of a run: what was printed and the exit status *)
Record outcome := { output : std; exit_status : nat }.

End Common.

(** ** The requests + BeautifulSoup script *)

Module Soup.
Import Py Common.

(** An element of the parsed tree, as far as the script looks at it:
    the text nodes below it in document order, and its attributes. *)
Record Tag := { strings : list string; attrs : list (string * string) }.

(** A parsed document: [soup.select(selector)] in document order. *)
Record BeautifulSoup := { select : string -> list Tag }.

(** [soup.select_one(selector)] *)
Definition select_one (soup : BeautifulSoup) (selector : string)
  : option Tag :=
  hd_error (select soup selector).

(** [element.get_text(strip=True)]: every text node stripped, the empty
    ones dropped, the rest concatenated. *)
Definition get_text (element : Tag) : string :=
  String.concat "" (filter truthy (map strip (strings element))).

(** [element.get(name)] *)
Fixpoint assoc (name : string) (l : list (string * string))
  : option string :=
  match l with
  | [] => None
  | (n, v) :: l' => if String.eqb name n then Some v else assoc name l'
  end.

Definition get (element : Tag) (name : string) : option string :=
  assoc name (attrs element).

(** the shape shared by the plain text extractors *)
Definition text_of (soup : BeautifulSoup) (k : key) : option string :=
  match select_one soup (SELECTORS k) with
  | Some element => Some (get_text element)
  | None => None
  end.

Definition extract_title (soup : BeautifulSoup) : option string :=
  text_of soup title.

Definition extract_price (soup : BeautifulSoup) : option string :=
  text_of soup price.

Definition extract_avg_rating (soup : BeautifulSoup) : option string :=
  match select_one soup (SELECTORS avg_rating) with
  | Some element => rating_of_text (get_text element)
  | None => None
  end.

Definition extract_review_count (soup : BeautifulSoup) : option string :=
  match select_one soup (SELECTORS review_count) with
  | Some element => count_of_text (get_text element)
  | None => None
  end.

Definition extract_availability (soup : BeautifulSoup) : option string :=
  text_of soup availability.

Definition extract_out_of_stock (soup : BeautifulSoup) : bool :=
  out_of_stock_of (extract_availability soup).

Definition extract_description (soup : BeautifulSoup) : option string :=
  text_of soup description.

Definition extract_features (soup : BeautifulSoup) : list string :=
  fold_left (fun features element => add_feature features (get_text element))
            (select soup (SELECTORS features)) [].

Definition extract_images (soup : BeautifulSoup) : list string :=
  let images :=
    match select_one soup (SELECTORS images) with
    | Some main_img =>
        add_main [] (or_ (get main_img "data-old-hires") (get main_img "src"))
    | None => []
    end in
  fold_left (fun images thumb => add_thumb images (get thumb "src"))
            (select soup THUMBNAILS) images.

Definition extract_category (soup : BeautifulSoup) : option string :=
  match select soup (SELECTORS category) with
  | [] => None
  | elements => Some (join " > " (map get_text elements))
  end.

Definition extract_ships_from (soup : BeautifulSoup) : option string :=
  text_of soup ships_from.

Definition extract_sold_by (soup : BeautifulSoup) : option string :=
  text_of soup sold_by.

(** the dictionary [scrape_amazon_product] builds from a fetched page *)
Definition product_data (soup : BeautifulSoup) (url : string) : dict :=
  [ ("title", of_opt (extract_title soup));
    ("price", of_opt (extract_price soup));
    ("avg_rating", of_opt (extract_avg_rating soup));
    ("review_count", of_opt (extract_review_count soup));
    ("availability", of_opt (extract_availability soup));
    ("out_of_stock", VBool (extract_out_of_stock soup));
    ("description", of_opt (extract_description soup));
    ("features", VList (extract_features soup));
    ("images", VList (extract_images soup));
    ("category", of_opt (extract_category soup));
    ("ships_from", of_opt (extract_ships_from soup));
    ("sold_by", of_opt (extract_sold_by soup));
    ("url", VStr url) ].

(** What [requests] can raise. *)
Inductive RequestException :=
| Timeout
| ConnectionError
| HTTPError (msg : string)
| OtherRequestException (msg : string).

Record Response := { status_code : nat; content : string }.

Section Run.
(** the network's answer to [requests.get(url, headers=HEADERS, timeout=30)] *)
Variable requests_get : string -> RequestException + Response.
(** the text of the [HTTPError] that [raise_for_status] builds *)
Variable http_error_text : Response -> string.
(** [BeautifulSoup(content, 'lxml')] *)
Variable lxml : string -> BeautifulSoup.

(** [response.raise_for_status()] *)
Definition raise_for_status (response : Response)
  : RequestException + unit :=
  if ((400 <=? status_code response) && (status_code response <? 600))%nat
  then inl (HTTPError (http_error_text response))
  else inr tt.

(** the [try] block of [fetch_page] *)
Definition fetch_body (url : string) : RequestException + BeautifulSoup :=
  match requests_get url with
  | inl e => inl e
  | inr response =>
      match raise_for_status response with
      | inl e => inl e
      | inr _ => inr (lxml (content response))
      end
  end.

Definition fetch_page (url : string) : IO (option BeautifulSoup) :=
  match fetch_body url with
  | inr soup => ret (Some soup)
  | inl Timeout =>
      bind (eprint "error: request timed out") (fun _ => ret None)
  | inl ConnectionError =>
      bind (eprint "error: failed to connect to the server")
           (fun _ => ret None)
  | inl (HTTPError e) =>
      bind (eprint ("error: http error occurred - " ++ e))
           (fun _ => ret None)
  | inl (OtherRequestException e) =>
      bind (eprint ("error: request failed - " ++ e)) (fun _ => ret None)
  end.

Definition scrape_amazon_product (url : string) : IO (option dict) :=
  bind (fetch_page url) (fun soup =>
  match soup with
  | None => ret None
  | Some soup => ret (Some (product_data soup url))
  end).

Definition failed : IO nat :=
  bind (eprint "failed to scrape product data") (fun _ => ret 1).

Definition main_io : IO nat :=
  bind (print (Text ("scraping: " ++ TARGET_URL ++ String "010" ""))) (fun _ =>
  bind (scrape_amazon_product TARGET_URL) (fun product_data =>
  match product_data with
  | Some d =>
      if truthy_dict d then bind (print (Json d)) (fun _ => ret 0)
      else failed
  | None => failed
  end)).

Definition main : outcome :=
  let (status, w) := main_io empty_std in
  {| output := w; exit_status := status |}.
End Run.

End Soup.

(** ** The Playwright script *)

Module Playwright.
Import Py Common.

(** What the browser driver can raise: [TimeoutError] is Playwright's
    timeout, [Error] any other [Exception]. *)
Inductive exn :=
| TimeoutError (msg : string)
| Error (msg : string).

Inductive result (A : Type) :=
| Ok (a : A)
| Raise (e : exn).
Arguments Ok {A} a.
Arguments Raise {A} e.

Definition rbind {A B} (m : result A) (f : A -> result B) : result B :=
  match m with Ok a => f a | Raise e => Raise e end.

(** [try: body / except Exception: handler] *)
Definition try_except {A} (body : result A) (handler : exn -> result A)
  : result A :=
  match body with Ok a => Ok a | Raise e => handler e end.

(** A handle on an element of the live page. *)
Record ElementHandle := {
  inner_text : result string;
  get_attribute : string -> result (option string)
}.

(** A page: [page.query_selector_all(selector)] in document order.  The
    page is taken as it stands when extraction starts: throughout one
    run the same query gets the same answer. *)
Record Page := { query_selector_all : string -> result (list ElementHandle) }.

(** [page.query_selector(selector)] *)
Definition query_selector (page : Page) (selector : string)
  : result (option ElementHandle) :=
  rbind (query_selector_all page selector) (fun l => Ok (hd_error l)).

(** the shape shared by the plain text extractors: the [try] block
    returns the stripped text, every other path ends in [return None] *)
Definition text_of (page : Page) (k : key) : result (option string) :=
  try_except
    (rbind (query_selector page (SELECTORS k)) (fun element =>
     match element with
     | Some element =>
         rbind (inner_text element) (fun t => Ok (Some (strip t)))
     | None => Ok None
     end))
    (fun _ => Ok None).

Definition extract_title (page : Page) := text_of page title.

Definition extract_price (page : Page) := text_of page price.

Definition extract_avg_rating (page : Page) : result (option string) :=
  try_except
    (rbind (query_selector page (SELECTORS avg_rating)) (fun element =>
     match element with
     | Some element =>
         rbind (inner_text element) (fun t => Ok (rating_of_text (strip t)))
     | None => Ok None
     end))
    (fun _ => Ok None).

Definition extract_review_count (page : Page) : result (option string) :=
  try_except
    (rbind (query_selector page (SELECTORS review_count)) (fun element =>
     match element with
     | Some element =>
         rbind (inner_text element) (fun t => Ok (count_of_text (strip t)))
     | None => Ok None
     end))
    (fun _ => Ok None).

Definition extract_availability (page : Page) := text_of page availability.

Definition extract_out_of_stock (page : Page) : result bool :=
  rbind (extract_availability page) (fun availability =>
  Ok (out_of_stock_of availability)).

Definition extract_description (page : Page) := text_of page description.

(** Code that fills a local list and may raise on the way: the list as
    it stands survives the exception. *)
Definition filling (A : Type) : Type := list string -> result A * list string.

Definition fret {A} (a : A) : filling A := fun l => (Ok a, l).

Definition fbind {A B} (m : filling A) (f : A -> filling B) : filling B :=
  fun l =>
    match m l with
    | (Ok a, l') => f a l'
    | (Raise e, l') => (Raise e, l')
    end.

Definition call {A} (r : result A) : filling A := fun l => (r, l).

Definition update (f : list string -> list string) : filling unit :=
  fun l => (Ok tt, f l).

Fixpoint for_each {A} (xs : list A) (body : A -> filling unit)
  : filling unit :=
  match xs with
  | [] => fret tt
  | x :: xs' => fbind (body x) (fun _ => for_each xs' body)
  end.

(** [l = [] / try: body / except Exception: pass / return l] *)
Definition collect (body : filling unit) : result (list string) :=
  Ok (snd (body [])).

Definition extract_features (page : Page) : result (list string) :=
  collect
    (fbind (call (query_selector_all page (SELECTORS features))) (fun elements =>
     for_each elements (fun element =>
       fbind (call (inner_text element)) (fun t =>
       update (fun features => add_feature features (strip t)))))).

(** [a.get_attribute(x) or a.get_attribute(y)]: the second call is made
    only when the first value is falsy *)
Definition attribute_or (e : ElementHandle) (x y : string)
  : result (option string) :=
  rbind (get_attribute e x) (fun a =>
  if truthy_opt a then Ok a else get_attribute e y).

Definition extract_images (page : Page) : result (list string) :=
  collect
    (fbind (call (query_selector page (SELECTORS images))) (fun main_img =>
     fbind
       match main_img with
       | Some main_img =>
           fbind (call (attribute_or main_img "data-old-hires" "src"))
                 (fun img_url => update (fun images => add_main images img_url))
       | None => fret tt
       end (fun _ =>
     fbind (call (query_selector_all page THUMBNAILS)) (fun thumbnail_elements =>
     for_each thumbnail_elements (fun thumb =>
       fbind (call (get_attribute thumb "src")) (fun img_url =>
       update (fun images => add_thumb images img_url))))))).

(** [[el.inner_text().strip() for el in elements]] *)
Fixpoint texts (elements : list ElementHandle) : result (list string) :=
  match elements with
  | [] => Ok []
  | el :: rest =>
      rbind (inner_text el) (fun t =>
      rbind (texts rest) (fun ts => Ok (strip t :: ts)))
  end.

Definition extract_category (page : Page) : result (option string) :=
  try_except
    (rbind (query_selector_all page (SELECTORS category)) (fun elements =>
     match elements with
     | [] => Ok None
     | _ => rbind (texts elements) (fun categories =>
            Ok (Some (join " > " categories)))
     end))
    (fun _ => Ok None).

Definition extract_ships_from (page : Page) := text_of page ships_from.

Definition extract_sold_by (page : Page) := text_of page sold_by.

(** the dictionary [scrape_amazon_product] builds from the loaded page *)
Definition product_data (page : Page) (url : string) : result dict :=
  rbind (extract_title page) (fun v_title =>
  rbind (extract_price page) (fun v_price =>
  rbind (extract_avg_rating page) (fun v_avg_rating =>
  rbind (extract_review_count page) (fun v_review_count =>
  rbind (extract_availability page) (fun v_availability =>
  rbind (extract_out_of_stock page) (fun v_out_of_stock =>
  rbind (extract_description page) (fun v_description =>
  rbind (extract_features page) (fun v_features =>
  rbind (extract_images page) (fun v_images =>
  rbind (extract_category page) (fun v_category =>
  rbind (extract_ships_from page) (fun v_ships_from =>
  rbind (extract_sold_by page) (fun v_sold_by =>
  Ok [ ("title", of_opt v_title);
       ("price", of_opt v_price);
       ("avg_rating", of_opt v_avg_rating);
       ("review_count", of_opt v_review_count);
       ("availability", of_opt v_availability);
       ("out_of_stock", VBool v_out_of_stock);
       ("description", of_opt v_description);
       ("features", VList v_features);
       ("images", VList v_images);
       ("category", of_opt v_category);
       ("ships_from", of_opt v_ships_from);
       ("sold_by", of_opt v_sold_by);
       ("url", VStr url) ])))))))))))).

(** One browser session, as far as [scrape_amazon_product] drives it. *)
Record Session := {
  launch : result unit;          (* start, launch, new context, new page *)
  goto : string -> result unit;
  wait_for_selector : string -> result unit;
  wait_for_timeout : result unit;
  page : Page;
  close : result unit            (* [browser.close()] and leaving [with] *)
}.

Definition str (e : exn) : string :=
  match e with TimeoutError msg => msg | Error msg => msg end.

(** the [try] block of [scrape_amazon_product]; the [print] in it comes
    after the page was created *)
Definition scrape_body (b : Session) (url : string) : IO (result dict) :=
  match launch b with
  | Raise e => ret (Raise e)
  | Ok _ =>
      bind (print (Text ("navigating to: " ++ url))) (fun _ =>
      ret (rbind (goto b url) (fun _ =>
           rbind (wait_for_selector b "#productTitle") (fun _ =>
           rbind (wait_for_timeout b) (fun _ =>
           rbind (product_data (page b) url) (fun d =>
           rbind (close b) (fun _ => Ok d)))))))
  end.

Definition scrape_amazon_product (b : Session) (url : string)
  : IO (option dict) :=
  bind (scrape_body b url) (fun r =>
  match r with
  | Ok d => ret (Some d)
  | Raise (TimeoutError _) =>
      bind (eprint "error: page load timed out") (fun _ => ret None)
  | Raise (Error e) =>
      bind (eprint ("error: failed to scrape page - " ++ e))
           (fun _ => ret None)
  end).

Definition failed : IO nat :=
  bind (eprint "failed to scrape product data") (fun _ => ret 1).

Definition main_io (b : Session) : IO nat :=
  bind (print (Text ("scraping: " ++ TARGET_URL ++ String "010" ""))) (fun _ =>
  bind (scrape_amazon_product b TARGET_URL) (fun product_data =>
  match product_data with
  | Some d =>
      if truthy_dict d then bind (print (Json d)) (fun _ => ret 0)
      else failed
  | None => failed
  end)).

Definition main (b : Session) : outcome :=
  let (status, w) := main_io b empty_std in
  {| output := w; exit_status := status |}.

End Playwright.

(** ** The words of the specification *)

Module Spec.
Import Py Common.

(** [k] occurs in [s] *)
Definition is_substring (k s : string) : Prop :=
  exists pre post, s = pre ++ k ++ post.

(** an absolute HTTP(S) URL starts with its scheme *)
Definition absolute_http_url (u : string) : bool :=
  startswith u "http://" || startswith u "https://".

(** a size-suffix token: dot, underscore, capital letters, digits,
    underscore, dot *)
Definition is_size_token (t : string) : Prop :=
  exists letters digits,
    t = "._" ++ letters ++ digits ++ "_."
    /\ letters <> "" /\ all isupper_az letters = true
    /\ digits <> "" /\ all isdigit digits = true.

Definition has_size_token (u : string) : Prop :=
  exists pre t post, u = pre ++ t ++ post /\ is_size_token t.

(** a sequence with every repetition after the first one removed *)
Fixpoint first_occurrences (l : list string) : list string :=
  match l with
  | [] => []
  | x :: l' =>
      x :: filter (fun y => negb (String.eqb y x)) (first_occurrences l')
  end.

(** append only if not already present *)
Definition add_new (l : list string) (x : string) : list string :=
  if mem x l then l else (l ++ [x])%list.

(** the high-resolution attribute, when it has a value, before the
    default source attribute *)
Definition preferred (hires src : option string) : option string :=
  match hires with
  | Some "" | None => src
  | Some h => Some h
  end.

(** every URL of a sequence starts with the four characters http *)
Definition all_http (l : list string) : Prop :=
  Forall (fun u => startswith u "http" = true) l.

(** a feature is kept when its text is longer than five characters *)
Definition long_enough (text : string) : bool :=
  (5 <? String.length text)%nat.

(** a thumbnail source the loop takes up *)
Definition usable (img_url : option string) : list string :=
  match img_url with
  | Some u => if truthy u && startswith u "http" then [u] else []
  | None => []
  end.

(** the thirteen keys of a product record, in order *)
Definition record_keys : list string :=
  ["title"; "price"; "avg_rating"; "review_count"; "availability";
   "out_of_stock"; "description"; "features"; "images"; "category";
   "ships_from"; "sold_by"; "url"].

(** the key under which a selector's field is stored *)
Definition name (k : key) : string :=
  match k with
  | title => "title" | price => "price" | avg_rating => "avg_rating"
  | review_count => "review_count" | availability => "availability"
  | description => "description" | features => "features"
  | images => "images" | category => "category"
  | ships_from => "ships_from" | sold_by => "sold_by"
  end.



(** the words an item of a pattern stands for *)
Definition item_word (it : re.item) (w : string) : Prop :=
  match it with
  | re.Mark => w = ""
  | re.Atom cls re.One => exists c, w = String c "" /\ cls c = true
  | re.Atom cls re.Opt =>
      w = "" \/ exists c, w = String c "" /\ cls c = true
  | re.Atom cls re.Star => all cls w = true
  | re.Atom cls re.Plus => w <> "" /\ all cls w = true
  end.

(** the words a pattern stands for *)
Fixpoint pattern_word (p : re.pattern) (w : string) : Prop :=
  match p with
  | [] => w = ""
  | it :: p' =>
      exists w1 w2, w = w1 ++ w2 /\ item_word it w1 /\ pattern_word p' w2
  end.

(** the record of a page on which nothing was found *)
Definition null_record (url : string) : dict :=
  [ ("title", VNone); ("price", VNone); ("avg_rating", VNone);
    ("review_count", VNone); ("availability", VNone);
    ("out_of_stock", VBool false); ("description", VNone);
    ("features", VList []); ("images", VList []); ("category", VNone);
    ("ships_from", VNone); ("sold_by", VNone); ("url", VStr url) ].

(** what a call returned, with a default in case it raised *)
Definition value_of {A} (default : A) (r : Playwright.result A) : A :=
  match r with Playwright.Ok a => a | Playwright.Raise _ => default end.



(** the record the Playwright script builds, every call settled *)
Definition settled (page : Playwright.Page) (url : string) : dict :=
  [ ("title", of_opt (value_of None (Playwright.extract_title page)));
    ("price", of_opt (value_of None (Playwright.extract_price page)));
    ("avg_rating", of_opt (value_of None (Playwright.extract_avg_rating page)));
    ("review_count",
     of_opt (value_of None (Playwright.extract_review_count page)));
    ("availability",
     of_opt (value_of None (Playwright.extract_availability page)));
    ("out_of_stock",
     VBool (value_of false (Playwright.extract_out_of_stock page)));
    ("description",
     of_opt (value_of None (Playwright.extract_description page)));
    ("features", VList (value_of [] (Playwright.extract_features page)));
    ("images", VList (value_of [] (Playwright.extract_images page)));
    ("category", of_opt (value_of None (Playwright.extract_category page)));
    ("ships_from", of_opt (value_of None (Playwright.extract_ships_from page)));
    ("sold_by", of_opt (value_of None (Playwright.extract_sold_by page)));
    ("url", VStr url) ].

(** the stripped texts of the elements whose text the browser gives *)
Definition readable_texts (els : list Playwright.ElementHandle) : list string :=
  flat_map (fun el => match Playwright.inner_text el with
                      | Playwright.Ok t => [strip t]
                      | Playwright.Raise _ => []
                      end) els.

(** the first line either script prints *)
Definition banner : printed :=
  Text ("scraping: " ++ TARGET_URL ++ String "010" "").

(** a record was printed *)
Definition printed_record (w : std) : Prop :=
  exists d, In (Json d) (stdout w).

(** text that neither starts nor ends with a whitespace character *)
Definition starts_with_space (s : string) : bool :=
  match s with String c _ => isspace c | EmptyString => false end.

Fixpoint ends_with_space (s : string) : bool :=
  match s with
  | EmptyString => false
  | String c EmptyString => isspace c
  | String _ r => ends_with_space r
  end.

Definition trimmed (s : string) : Prop :=
  starts_with_space s = false /\ ends_with_space s = false.

(** numeric text: digits, then at most one dot, then digits *)
Definition decimal_text (v : string) : Prop :=
  exists whole dot fraction,
    v = whole ++ dot ++ fraction
    /\ whole <> "" /\ all isdigit whole = true
    /\ (dot = "" \/ dot = ".")
    /\ all isdigit fraction = true.

(** [v] stands in [text] right before optional whitespace and "out of" *)
Definition before_out_of (v text : string) : Prop :=
  exists pre blanks post,
    text = pre ++ v ++ blanks ++ "out of" ++ post
    /\ all isspace blanks = true.

(** the text does not go on with a character of the class *)
Definition stops (cls : ascii -> bool) (rest : string) : Prop :=
  match rest with String c _ => cls c = false | EmptyString => True end.

(** an element of the parsed tree and a handle of the live page that
    show the same text and the same attributes *)
Definition same_element (tag : Soup.Tag) (h : Playwright.ElementHandle) : Prop :=
  (exists t, Playwright.inner_text h = Playwright.Ok t
             /\ strip t = Soup.get_text tag)
  /\ forall n, Playwright.get_attribute h n = Playwright.Ok (Soup.get tag n).

(** a live page that answers every query with the elements of a parsed
    document *)
Definition mirrors (soup : Soup.BeautifulSoup) (page : Playwright.Page) : Prop :=
  forall selector, exists hs,
    Playwright.query_selector_all page selector = Playwright.Ok hs
    /\ Forall2 same_element (Soup.select soup selector) hs.

(** the browser calls of one run, in the order the script makes them *)
Definition session_steps (b : Playwright.Session) (url : string)
  : Playwright.result unit :=
  Playwright.rbind (Playwright.launch b) (fun _ =>
  Playwright.rbind (Playwright.goto b url) (fun _ =>
  Playwright.rbind (Playwright.wait_for_selector b "#productTitle") (fun _ =>
  Playwright.rbind (Playwright.wait_for_timeout b) (fun _ =>
  Playwright.close b)))).

(** the line the Playwright script prints for an exception *)
Definition complaint (e : Playwright.exn) : string :=
  match e with
  | Playwright.TimeoutError _ => "error: page load timed out"
  | Playwright.Error msg => "error: failed to scrape page - " ++ msg
  end.

(** the line printed once the page exists *)
Definition navigating (url : string) : printed :=
  Text ("navigating to: " ++ url).

(** what the Playwright script printed before an exception stopped it *)
Definition printed_before (b : Playwright.Session) : list printed :=
  match Playwright.launch b with
  | Playwright.Ok _ => [banner; navigating TARGET_URL]
  | Playwright.Raise _ => [banner]
  end.

(** a response the requests script takes as a page *)
Definition accepted (response : Soup.Response) : bool :=
  negb ((400 <=? Soup.status_code response)%nat
        && (Soup.status_code response <? 600)%nat).

End Spec.

(** ** Sample documents *)

Module Samples.
Import Py Common.

Fixpoint find {A} (k : string) (l : list (string * A)) : option A :=
  match l with
  | [] => None
  | (k', v) :: l' => if String.eqb k k' then Some v else find k l'
  end.

Definition tag (text : string) (attrs : list (string * string)) : Soup.Tag :=
  {| Soup.strings := [text]; Soup.attrs := attrs |}.

(** a parsed document given by what each selector matches *)
Definition soup_of (l : list (string * list Soup.Tag)) : Soup.BeautifulSoup :=
  {| Soup.select := fun selector =>
       match find selector l with Some ts => ts | None => [] end |}.

Definition handle (text : string) (attrs : list (string * string))
  : Playwright.ElementHandle :=
  {| Playwright.inner_text := Playwright.Ok text;
     Playwright.get_attribute := fun n => Playwright.Ok (find n attrs) |}.

(** an element whose text cannot be read *)
Definition broken : Playwright.ElementHandle :=
  {| Playwright.inner_text := Playwright.Raise (Playwright.Error "detached");
     Playwright.get_attribute :=
       fun _ => Playwright.Raise (Playwright.Error "detached") |}.

(** a page given by what each selector query returns *)
Definition page_of
  (l : list (string * Playwright.result (list Playwright.ElementHandle)))
  : Playwright.Page :=
  {| Playwright.query_selector_all := fun selector =>
       match find selector l with
       | Some r => r
       | None => Playwright.Ok []
       end |}.

Definition empty_soup : Soup.BeautifulSoup := soup_of [].

Definition empty_page : Playwright.Page := page_of [].

(** a product page with a rating, a review count and an availability *)
Definition rated_soup : Soup.BeautifulSoup :=
  soup_of [ (SELECTORS avg_rating, [tag " 4.5 out of 5 stars " []]);
            (SELECTORS review_count, [tag "1,234 ratings" []]);
            (SELECTORS availability, [tag "Currently unavailable." []]) ].

Definition rated_page : Playwright.Page :=
  page_of [ (SELECTORS avg_rating,
             Playwright.Ok [handle " 4.5 out of 5 stars " []]);
            (SELECTORS review_count,
             Playwright.Ok [handle "1,234 ratings" []]);
            (SELECTORS availability,
             Playwright.Ok [handle "Currently unavailable." []]) ].

(** a review-count element that holds a lone comma *)
Definition comma_soup : Soup.BeautifulSoup :=
  soup_of [ (SELECTORS review_count, [tag "," []]) ].

Definition comma_page : Playwright.Page :=
  page_of [ (SELECTORS review_count, Playwright.Ok [handle "," []]) ].

(** a review-count element whose number comes after a comma *)
Definition late_number_soup : Soup.BeautifulSoup :=
  soup_of [ (SELECTORS review_count, [tag "Reviews, 12" []]) ].

(** bullet points: one padded, one too short, one repeated *)
Definition bullet_texts : list string :=
  ["  Wireless  "; "USB"; "8K DPI sensor"; "Wireless"].

Definition bullets_soup : Soup.BeautifulSoup :=
  soup_of [ (SELECTORS features, map (fun t => tag t []) bullet_texts) ].

Definition bullets_page : Playwright.Page :=
  page_of [ (SELECTORS features,
             Playwright.Ok (map (fun t => handle t []) bullet_texts)) ].

(** the third bullet cannot be read *)
Definition torn_page : Playwright.Page :=
  page_of [ (SELECTORS features,
             Playwright.Ok [handle "  Wireless  " []; handle "USB" [];
                            broken; handle "Wireless" []]) ].

Definition main_attrs : list (string * string) :=
  [ ("src", "https://m.media-amazon.com/images/I/61abc._AC_SY355_.jpg");
    ("data-old-hires",
     "https://m.media-amazon.com/images/I/61abc._AC_SL1500_.jpg") ].

Definition thumb_sources : list string :=
  [ "https://m.media-amazon.com/images/I/61abc._SS40_.jpg";
    "https://m.media-amazon.com/images/I/41xyz._AC_US40_.jpg";
    "/images/sprite.png";
    "https://m.media-amazon.com/images/I/71def._SX38_.jpg";
    "https://m.media-amazon.com/images/I/71def._SY50_.jpg" ].

(** a page with a main image and a strip of thumbnails *)
Definition gallery_soup : Soup.BeautifulSoup :=
  soup_of [ (SELECTORS images, [tag "" main_attrs]);
            (THUMBNAILS, map (fun u => tag "" [("src", u)]) thumb_sources) ].

Definition gallery_page : Playwright.Page :=
  page_of [ (SELECTORS images, Playwright.Ok [handle "" main_attrs]);
            (THUMBNAILS,
             Playwright.Ok (map (fun u => handle "" [("src", u)])
                                thumb_sources)) ].

(** a main image found, and a thumbnail query that raises *)
Definition half_gallery_page : Playwright.Page :=
  page_of [ (SELECTORS images, Playwright.Ok [handle "" main_attrs]);
            (THUMBNAILS, Playwright.Raise (Playwright.Error "closed")) ].

(** a main image whose source is a relative path that starts with http *)
Definition relative_soup : Soup.BeautifulSoup :=
  soup_of [ (SELECTORS images, [tag "" [("src", "httpdocs/main.jpg")]]) ].

(** a server that answers 200 with a page in which nothing matches *)
Definition answering (url : string) : Soup.RequestException + Soup.Response :=
  inr {| Soup.status_code := 200; Soup.content := "<html></html>" |}.

Definition parse_blank (content : string) : Soup.BeautifulSoup := empty_soup.

(** a server that refuses the connection *)
Definition refusing (url : string) : Soup.RequestException + Soup.Response :=
  inl Soup.ConnectionError.

(** a server that answers 503 *)
Definition overloaded (url : string) : Soup.RequestException + Soup.Response :=
  inr {| Soup.status_code := 503; Soup.content := "" |}.

Definition error_text (response : Soup.Response) : string :=
  "503 Server Error".

(** a browser whose navigation times out *)
Definition stalled : Playwright.Session :=
  {| Playwright.launch := Playwright.Ok tt;
     Playwright.goto := fun _ =>
       Playwright.Raise (Playwright.TimeoutError "Timeout 60000ms exceeded");
     Playwright.wait_for_selector := fun _ => Playwright.Ok tt;
     Playwright.wait_for_timeout := Playwright.Ok tt;
     Playwright.page := empty_page;
     Playwright.close := Playwright.Ok tt |}.


(** a page whose title query raises while the price is there *)
Definition shaky_page : Playwright.Page :=
  page_of [ (SELECTORS title, Playwright.Raise (Playwright.Error "closed"));
            (SELECTORS price, Playwright.Ok [handle " $99.99 " []]) ].

(** a page that shows only a price, padded with blanks *)
Definition priced_soup : Soup.BeautifulSoup :=
  soup_of [ (SELECTORS price, [tag " $99.99 " []]) ].

(** a review-count element that starts with the rating *)
Definition mixed_soup : Soup.BeautifulSoup :=
  soup_of [ (SELECTORS review_count, [tag "4.5 stars, 1,234 ratings" []]) ].

Definition mixed_page : Playwright.Page :=
  page_of [ (SELECTORS review_count,
             Playwright.Ok [handle "4.5 stars, 1,234 ratings" []]) ].

Definition crumbs : list string := ["Electronics"; " Computers "; "Mice"].

Definition crumbs_soup : Soup.BeautifulSoup :=
  soup_of [ (SELECTORS category, map (fun t => tag t []) crumbs) ].

Definition crumbs_page : Playwright.Page :=
  page_of [ (SELECTORS category,
             Playwright.Ok (map (fun t => handle t []) crumbs)) ].

(** the last breadcrumb cannot be read *)
Definition torn_crumbs_page : Playwright.Page :=
  page_of [ (SELECTORS category,
             Playwright.Ok [handle "Electronics" []; handle "Computers" [];
                            broken]) ].

(** a browser that loads the page and then fails to close *)
Definition unclosing : Playwright.Session :=
  {| Playwright.launch := Playwright.Ok tt;
     Playwright.goto := fun _ => Playwright.Ok tt;
     Playwright.wait_for_selector := fun _ => Playwright.Ok tt;
     Playwright.wait_for_timeout := Playwright.Ok tt;
     Playwright.page := rated_page;
     Playwright.close :=
       Playwright.Raise (Playwright.Error "browser has been closed") |}.

(** a main image whose high-resolution attribute is a data URI *)
Definition inline_attrs : list (string * string) :=
  [ ("data-old-hires", "data:image/gif;base64,R0lGOD");
    ("src", "https://m.media-amazon.com/images/I/61abc._AC_SY355_.jpg") ].

Definition inline_soup : Soup.BeautifulSoup :=
  soup_of [ (SELECTORS images, [tag "" inline_attrs]);
            (THUMBNAILS, map (fun u => tag "" [("src", u)]) thumb_sources) ].

End Samples.

(** ** Strings *)

Section Strings.
Import Py.

Lemma append_nil_r (s : string) : s ++ "" = s.
Proof. induction s as [|c s IH]; simpl; [reflexivity | now rewrite IH]. Qed.

Lemma append_assoc (a b c : string) : (a ++ b) ++ c = a ++ b ++ c.
Proof. induction a as [|x a IH]; simpl; [reflexivity | now rewrite IH]. Qed.

Lemma length_append (a b : string) :
  String.length (a ++ b) = String.length a + String.length b.
Proof. induction a as [|x a IH]; simpl; [reflexivity | now rewrite IH]. Qed.

Lemma prefix_iff (p s : string) :
  String.prefix p s = true <-> exists r, s = p ++ r.
Proof.
  revert s; induction p as [|c p IH]; intros s.
  - split; [intros _; exists s; reflexivity | intros _; now destruct s].
  - destruct s as [|d s]; simpl.
    + split; [discriminate | intros [r Hr]; discriminate].
    + destruct (Ascii.ascii_dec c d) as [->|Hne].
      * rewrite IH. split; intros [r Hr]; exists r; congruence.
      * split; [discriminate | intros [r Hr]; congruence].
Qed.

Lemma contains_iff (k s : string) :
  contains k s = true <-> Spec.is_substring k s.
Proof.
  unfold Spec.is_substring.
  induction s as [|c s IH].
  - change (contains k "") with (String.prefix k "" || false).
    rewrite orb_false_r, prefix_iff. split.
    + intros [r Hr]. exists "", r. exact Hr.
    + intros [pre [post H]]. destruct pre; [now exists post|discriminate].
  - change (contains k (String c s))
      with (String.prefix k (String c s) || contains k s).
    rewrite orb_true_iff, prefix_iff, IH. split.
    + intros [[r Hr] | [pre [post H]]].
      * exists "", r. exact Hr.
      * exists (String c pre), post. simpl. now rewrite H.
    + intros [pre [post H]]. destruct pre as [|d pre].
      * left. now exists post.
      * right. exists pre, post. simpl in H. congruence.
Qed.

Lemma substring_tail (c : ascii) (k s : string) :
  Spec.is_substring k s -> Spec.is_substring k (String c s).
Proof.
  intros [pre [post H]]. exists (String c pre), post. simpl. now rewrite H.
Qed.

Lemma substring_append_l (a k s : string) :
  Spec.is_substring k s -> Spec.is_substring k (a ++ s).
Proof.
  intros H. induction a; simpl; [exact H | now apply substring_tail].
Qed.

Lemma truthy_false (s : string) : truthy s = false -> s = "".
Proof. destruct s; [reflexivity | discriminate]. Qed.

Lemma mem_iff (x : string) (l : list string) : mem x l = true <-> In x l.
Proof.
  unfold mem. rewrite existsb_exists. split.
  - intros [y [Hy He]]. apply String.eqb_eq in He. now subst.
  - intros H. exists x. split; [exact H | apply String.eqb_refl].
Qed.

Lemma span_append (w rest : string) : re.span (w ++ rest) rest = w.
Proof.
  unfold re.span. rewrite length_append.
  replace (String.length w + String.length rest - String.length rest)
    with (String.length w) by lia.
  induction w as [|c w IH]; simpl.
  - now destruct rest.
  - now rewrite IH.
Qed.

End Strings.

(** ** The matcher against the words of a pattern *)

Section Matcher.
Import Py Py.re Spec.

Lemma all_append (f : ascii -> bool) (a b : string) :
  all f (a ++ b) = all f a && all f b.
Proof.
  induction a as [|c a IH]; simpl; [reflexivity|].
  now rewrite IH, andb_assoc.
Qed.

Section Continuation.
Context {R : Type} (cls : ascii -> bool) (k : string -> option R).

Lemma one_sound s r :
  one cls k s = Some r ->
  exists w s', s = w ++ s' /\ item_word (Atom cls One) w /\ k s' = Some r.
Proof.
  destruct s as [|c s]; simpl; [discriminate|].
  destruct (cls c) eqn:Hc; [|discriminate].
  intros H. exists (String c ""), s. simpl. eauto.
Qed.

Lemma opt_sound s r :
  opt cls k s = Some r ->
  exists w s', s = w ++ s' /\ item_word (Atom cls Opt) w /\ k s' = Some r.
Proof.
  assert (Hskip : k s = Some r ->
    exists w s', s = w ++ s' /\ item_word (Atom cls Opt) w /\ k s' = Some r).
  { intros H. exists "", s. simpl. auto. }
  destruct s as [|c s]; simpl; [exact Hskip|].
  destruct (cls c) eqn:Hc; [|exact Hskip].
  destruct (k s) as [r'|] eqn:Hk; [|exact Hskip].
  intros [= <-]. exists (String c ""), s. simpl. eauto 6.
Qed.

Lemma star_sound s r :
  star cls k s = Some r ->
  exists w s', s = w ++ s' /\ all cls w = true /\ k s' = Some r.
Proof.
  induction s as [|c s IH]; simpl.
  - intros H. exists "", "". auto.
  - assert (Hskip : k (String c s) = Some r ->
      exists w s', String c s = w ++ s' /\ all cls w = true /\ k s' = Some r).
    { intros H. exists "", (String c s). auto. }
    destruct (cls c) eqn:Hc; [|exact Hskip].
    destruct (star cls k s) as [r'|] eqn:Hs; [|exact Hskip].
    intros [= <-]. destruct (IH eq_refl) as [w [s' [-> [Hw Hk]]]].
    exists (String c w), s'. simpl. rewrite Hc, Hw. auto.
Qed.

Lemma plus_sound s r :
  plus cls k s = Some r ->
  exists w s', s = w ++ s' /\ item_word (Atom cls Plus) w /\ k s' = Some r.
Proof.
  destruct s as [|c s]; simpl; [discriminate|].
  destruct (cls c) eqn:Hc; [|discriminate].
  intros H. destruct (star_sound _ _ H) as [w [s' [-> [Hw Hk]]]].
  exists (String c w), s'. simpl. rewrite Hc, Hw.
  repeat split; auto. discriminate.
Qed.

(** A greedy class takes the whole run when the rest then matches. *)
Lemma star_greedy w rest r :
  all cls w = true ->
  (forall c rest', rest = String c rest' -> cls c = false) ->
  k rest = Some r ->
  star cls k (w ++ rest) = Some r.
Proof.
  intros Hw Hstop Hk. induction w as [|c w IH]; simpl in *.
  - destruct rest as [|c rest']; [exact Hk|].
    simpl. now rewrite (Hstop c rest' eq_refl).
  - apply andb_true_iff in Hw as [Hc Hw]. now rewrite Hc, (IH Hw).
Qed.

Lemma star_total s :
  (forall s', k s' <> None) -> star cls k s <> None.
Proof.
  intros Hk. induction s as [|c s IH]; simpl; [apply Hk|].
  destruct (cls c); [|apply Hk].
  destruct (star cls k s); [discriminate | contradiction].
Qed.
End Continuation.

Lemma run_sound p : forall marks s ms rest,
  run p marks s = Some (ms, rest) ->
  exists w, s = w ++ rest /\ pattern_word p w.
Proof.
  induction p as [|it p IH]; intros marks s ms rest; simpl.
  - intros [= _ <-]. exists "". auto.
  - destruct it as [cls q|].
    + assert (Hk : forall w1 s',
        item_word (Atom cls q) w1 ->
        run p marks s' = Some (ms, rest) ->
        exists w, w1 ++ s' = w ++ rest /\
          (exists w1 w2, w = w1 ++ w2 /\ item_word (Atom cls q) w1
                         /\ pattern_word p w2)).
      { intros w1 s' Hw1 Hrun. destruct (IH _ _ _ _ Hrun) as [w2 [-> Hw2]].
        exists (w1 ++ w2). rewrite append_assoc. eauto 6. }
      destruct q; intros H.
      * destruct (one_sound _ _ _ _ H) as [w1 [s' [-> [Hw Hr]]]]. eauto.
      * destruct (opt_sound _ _ _ _ H) as [w1 [s' [-> [Hw Hr]]]]. eauto.
      * destruct (star_sound _ _ _ _ H) as [w1 [s' [-> [Hw Hr]]]]. eauto.
      * destruct (plus_sound _ _ _ _ H) as [w1 [s' [-> [Hw Hr]]]]. eauto.
    + intros H. destruct (IH _ _ _ _ H) as [w [-> Hw]].
      exists w. split; [reflexivity|]. exists "", w. simpl. auto.
Qed.

Lemma pattern_word_app p q w :
  pattern_word (p ++ q)%list w ->
  exists w1 w2, w = w1 ++ w2 /\ pattern_word p w1 /\ pattern_word q w2.
Proof.
  revert w; induction p as [|it p IH]; intros w; simpl.
  - intros H. exists "", w. auto.
  - intros [w1 [w2 [-> [H1 H2]]]].
    destruct (IH _ H2) as [u1 [u2 [-> [Hu1 Hu2]]]].
    exists (w1 ++ u1), u2. rewrite append_assoc. eauto 8.
Qed.

Lemma pattern_word_lits k w : pattern_word (lits k) w -> w = k.
Proof.
  revert w; induction k as [|c k IH]; intros w; simpl; [auto|].
  intros [w1 [w2 [-> [[d [-> Hd]] H2]]]].
  apply Ascii.eqb_eq in Hd. subst d. simpl. now rewrite (IH _ H2).
Qed.

Lemma search_some p s m :
  search p s = Some m ->
  exists pre, s = pre ++ m_from m /\ run p [] (m_from m) = Some (m_pos m).
Proof.
  induction s as [|c s IH]; simpl.
  - destruct (run p [] "") eqn:Hr; [|discriminate].
    intros [= <-]. exists "". auto.
  - destruct (run p [] (String c s)) eqn:Hr.
    + intros [= <-]. exists "". auto.
    + intros H. destruct (IH H) as [pre [Hs Hm]].
      exists (String c pre). simpl. now rewrite <- Hs.
Qed.

Lemma search_none_here p s : search p s = None -> run p [] s = None.
Proof.
  destruct s; simpl; destruct (run p [] _); auto; discriminate.
Qed.

Lemma search_none_tail p c s : search p (String c s) = None -> search p s = None.
Proof. simpl. destruct (run p [] (String c s)); auto; discriminate. Qed.

End Matcher.

(** ** The three patterns of the scripts *)

Section Patterns.
Import Py Py.re Common Spec.

Lemma rating_needs_out_of t v :
  rating_of_text t = Some v -> is_substring "out of" t.
Proof.
  unfold rating_of_text.
  destruct (search rating_pattern t) as [m|] eqn:Hs; [|discriminate].
  intros _. destruct (search_some _ _ _ Hs) as [pre [-> Hrun]].
  destruct (m_pos m) as [ms rest].
  destruct (run_sound _ _ _ _ _ Hrun) as [w [-> Hw]].
  apply pattern_word_app in Hw as [w1 [w2 [-> [_ Hw2]]]].
  apply pattern_word_lits in Hw2. subst w2.
  apply substring_append_l. exists w1, rest. now rewrite append_assoc.
Qed.

Lemma count_run s :
  run count_pattern [] s =
  plus digit_or_comma (fun s' => Some ([s; s'], s')) s.
Proof. reflexivity. Qed.

Lemma count_run_none c s :
  digit_or_comma c = false -> run count_pattern [] (String c s) = None.
Proof. intros H. rewrite count_run. simpl. now rewrite H. Qed.

Lemma count_run_some c s :
  digit_or_comma c = true -> run count_pattern [] (String c s) <> None.
Proof.
  intros H. rewrite count_run. simpl. rewrite H.
  apply star_total. discriminate.
Qed.

(** The digit-group pattern fails exactly on the texts without any digit
    or comma. *)
Lemma count_search_none t :
  search count_pattern t = None <->
  all (fun c => negb (digit_or_comma c)) t = true.
Proof.
  induction t as [|c t IH].
  - split; reflexivity.
  - change (all (fun c => negb (digit_or_comma c)) (String c t))
      with (negb (digit_or_comma c)
            && all (fun c => negb (digit_or_comma c)) t).
    rewrite andb_true_iff, <- IH. split.
    + intros H. split; [|now apply search_none_tail in H].
      apply search_none_here in H.
      destruct (digit_or_comma c) eqn:Hc; [|reflexivity].
      now apply count_run_some with (s := t) in Hc.
    + intros [Hc Ht]. apply negb_true_iff in Hc.
      cbn [search]. now rewrite (count_run_none c t Hc).
Qed.

Lemma replace_comma_digits w :
  all digit_or_comma w = true -> all isdigit (replace "," "" w) = true.
Proof.
  induction w as [|c w IH]; simpl; [reflexivity|].
  intros H. apply andb_true_iff in H as [Hc Hw].
  destruct (Ascii.eqb_spec c ","); simpl.
  - now apply IH.
  - unfold digit_or_comma in Hc. apply orb_true_iff in Hc as [Hc|Hc].
    + now rewrite Hc, IH.
    + apply Ascii.eqb_eq in Hc. contradiction.
Qed.

(** What the review count can be when it is not null: digits only. *)
Lemma count_digits t v :
  count_of_text t = Some v -> all isdigit v = true.
Proof.
  unfold count_of_text.
  destruct (search count_pattern t) as [m|] eqn:Hs; [|discriminate].
  intros [= <-]. destruct (search_some _ _ _ Hs) as [pre [_ Hrun]].
  rewrite count_run in Hrun.
  apply plus_sound in Hrun as [w [s' [Hfrom [[_ Hw] Hpos]]]].
  unfold group1. injection Hpos as Hpos. rewrite <- Hpos. simpl.
  rewrite Hfrom, span_append. now apply replace_comma_digits.
Qed.

Lemma size_word_token w : pattern_word size_pattern w -> is_size_token w.
Proof.
  unfold size_pattern. intros H.
  apply pattern_word_app in H as [w1 [w2 [-> [H1 H2]]]].
  apply pattern_word_lits in H1. subst w1.
  apply pattern_word_app in H2 as [w2' [w3 [-> [H2 H3]]]].
  apply pattern_word_lits in H3. subst w3.
  simpl in H2.
  destruct H2 as [l [r [-> [[Hl Hal] [d [e [-> [[Hd Had] ->]]]]]]]].
  exists l, d. rewrite append_nil_r, !append_assoc. auto.
Qed.

Lemma digit_not_upper c : isdigit c = true -> isupper_az c = false.
Proof.
  unfold isdigit, isupper_az, between. intros H.
  apply andb_true_iff in H as [_ H]. apply Nat.leb_le in H.
  apply andb_false_iff. left. apply Nat.leb_gt. lia.
Qed.

Lemma size_token_run t post :
  is_size_token t -> run size_pattern [] (t ++ post) = Some ([], post).
Proof.
  intros [l [d [-> [Hl [Hal [Hd Had]]]]]].
  destruct l as [|l0 l]; [contradiction|].
  destruct d as [|d0 d]; [contradiction|].
  simpl in Hal, Had.
  apply andb_true_iff in Hal as [Hl0 Hal].
  apply andb_true_iff in Had as [Hd0 Had].
  rewrite !append_assoc. simpl. rewrite Hl0. rewrite ?append_assoc.
  apply star_greedy; [exact Hal | intros c r [= <- _]; now apply digit_not_upper |].
  simpl. rewrite Hd0. rewrite ?append_assoc.
  apply star_greedy; [exact Had | intros c r [= <- _]; reflexivity |].
  reflexivity.
Qed.

Lemma token_nonempty t : is_size_token t -> t <> "".
Proof. intros [l [d [-> _]]]. discriminate. Qed.

Lemma drop_append w rest : drop (String.length w) (w ++ rest) = rest.
Proof.
  induction w as [|c w IH]; simpl; [now destruct rest | exact IH].
Qed.

Lemma sub_from_drop p repl n : forall s,
  n <= String.length s ->
  sub_from p repl n s = sub_from p repl 0 (drop n s).
Proof.
  induction n as [|n IH]; intros s Hn.
  - now destruct s.
  - destruct s as [|c s]; simpl in *; [lia|]. apply IH. lia.
Qed.

(** A match at the head of the text is replaced and the substitution
    goes on behind it. *)
Lemma large_url_head t post :
  is_size_token t -> large_url (t ++ post) = LARGE ++ large_url post.
Proof.
  intros Ht. unfold large_url, sub.
  pose proof (size_token_run t post Ht) as Hrun.
  destruct t as [|c t]; [now apply token_nonempty in Ht|].
  simpl append in *. cbn [sub_from]. rewrite Hrun.
  cbn [String.length]. rewrite length_append.
  replace (S (String.length t + String.length post) - String.length post)
    with (S (String.length t)) by lia.
  rewrite sub_from_drop by (rewrite length_append; lia).
  now rewrite drop_append.
Qed.

Lemma large_url_skip c s :
  run size_pattern [] (String c s) = None ->
  large_url (String c s) = String c (large_url s).
Proof. intros H. unfold large_url, sub. cbn [sub_from]. now rewrite H. Qed.

Lemma no_token_no_run s :
  ~ has_size_token s -> run size_pattern [] s = None.
Proof.
  intros Hno. destruct (run size_pattern [] s) as [[ms rest]|] eqn:Hr; [|reflexivity].
  exfalso. apply Hno. destruct (run_sound _ _ _ _ _ Hr) as [w [-> Hw]].
  exists "", w, rest. split; [reflexivity | now apply size_word_token].
Qed.

Lemma has_token_tail c s : has_size_token s -> has_size_token (String c s).
Proof.
  intros [pre [t [post [-> Ht]]]]. exists (String c pre), t, post. auto.
Qed.

Lemma large_url_identity u : ~ has_size_token u -> large_url u = u.
Proof.
  induction u as [|c u IH]; intros Hno.
  - reflexivity.
  - rewrite large_url_skip by now apply no_token_no_run.
    rewrite IH; [reflexivity|]. intros H. apply Hno. now apply has_token_tail.
Qed.

Lemma large_url_leftmost u :
  has_size_token u ->
  exists pre t post,
    u = pre ++ t ++ post /\ is_size_token t
    /\ large_url u = pre ++ LARGE ++ large_url post.
Proof.
  induction u as [|c u IH]; intros Hhas.
  - destruct Hhas as [pre [t [post [H Ht]]]]. apply token_nonempty in Ht.
    destruct pre; [destruct t; [contradiction|discriminate]|discriminate].
  - destruct (run size_pattern [] (String c u)) as [[ms rest]|] eqn:Hr.
    + destruct (run_sound _ _ _ _ _ Hr) as [w [Hw Htok]].
      apply size_word_token in Htok.
      exists "", w, rest. rewrite Hw. simpl.
      repeat split; auto. now apply large_url_head.
    + destruct Hhas as [pre [t [post [H Ht]]]].
      destruct pre as [|c' pre].
      * simpl in H. rewrite H, (size_token_run t post Ht) in Hr. discriminate.
      * simpl in H. injection H as <- ->.
        destruct IH as [pre' [t' [post' [Hu [Ht' Hl]]]]].
        { now exists pre, t, post. }
        exists (String c pre'), t', post'. rewrite (large_url_skip _ _ Hr).
        simpl. rewrite <- Hu, Hl. auto.
Qed.

(** The rewrite never touches what stands before the first dot. *)
Lemma large_url_http u :
  startswith u "http" = true -> startswith (large_url u) "http" = true.
Proof.
  unfold startswith. rewrite !prefix_iff. intros [r ->].
  exists (large_url r). simpl.
  repeat (rewrite large_url_skip by reflexivity). reflexivity.
Qed.

(** A text has a size token exactly when the pattern is found in it. *)
Lemma has_token_search u :
  has_size_token u <-> search size_pattern u <> None.
Proof.
  split.
  - intros [pre [t [post [-> Ht]]]]. induction pre as [|c pre IH].
    + simpl append. destruct (t ++ post) eqn:E;
        cbn [search]; rewrite <- E, (size_token_run t post Ht); discriminate.
    + simpl append. cbn [search].
      destruct (run size_pattern [] (String c (pre ++ t ++ post)));
        [discriminate | exact IH].
  - destruct (search size_pattern u) as [m|] eqn:Hs; [|contradiction].
    intros _. destruct (search_some _ _ _ Hs) as [pre [-> Hrun]].
    destruct (m_pos m) as [ms rest].
    destruct (run_sound _ _ _ _ _ Hrun) as [w [-> Hw]].
    exists pre, w, rest. split; [reflexivity | now apply size_word_token].
Qed.

End Patterns.

(** ** The loops that fill a list *)

Section Loops.
Import Py Common Spec.

Lemma add_feature_long fs t :
  add_feature fs t = if long_enough t then (fs ++ [t])%list else fs.
Proof.
  unfold add_feature, long_enough. destruct t; [reflexivity|].
  reflexivity.
Qed.

Lemma features_fold {A} (f : A -> string) xs : forall acc,
  fold_left (fun fs x => add_feature fs (f x)) xs acc
  = (acc ++ filter long_enough (map f xs))%list.
Proof.
  induction xs as [|x xs IH]; intros acc; simpl.
  - now rewrite app_nil_r.
  - rewrite IH, add_feature_long. destruct (long_enough (f x)).
    + now rewrite <- app_assoc.
    + reflexivity.
Qed.

Lemma filter_first_occurrences y l :
  filter (fun z => negb (String.eqb z y)) (first_occurrences l)
  = first_occurrences (filter (fun z => negb (String.eqb z y)) l).
Proof.
  induction l as [|x l IH]; simpl; [reflexivity|].
  destruct (String.eqb_spec x y) as [->|Hne]; simpl.
  - rewrite <- IH. clear IH. induction (first_occurrences l) as [|z r IHr]; simpl.
    + reflexivity.
    + destruct (String.eqb z y) eqn:E; simpl; [exact IHr|].
      rewrite E. simpl. now rewrite IHr.
  - f_equal. rewrite <- IH. clear IH.
    induction (first_occurrences l) as [|z r IHr]; simpl; [reflexivity|].
    destruct (String.eqb z x) eqn:Ex, (String.eqb z y) eqn:Ey; simpl;
      rewrite ?Ex, ?Ey; simpl; now rewrite IHr.
Qed.

Lemma first_occurrences_In x l : In x (first_occurrences l) <-> In x l.
Proof.
  induction l as [|y l IH]; simpl; [tauto|].
  rewrite filter_In, IH, negb_true_iff, String.eqb_neq.
  destruct (String.string_dec y x); intuition congruence.
Qed.

Lemma first_occurrences_NoDup l : NoDup (first_occurrences l).
Proof.
  induction l as [|y l IH]; simpl; constructor.
  - rewrite filter_In, String.eqb_refl. intros [_ H]. discriminate.
  - now apply NoDup_filter.
Qed.

Lemma first_occurrences_id l : NoDup l -> first_occurrences l = l.
Proof.
  induction 1 as [|x l Hx Hl IH]; simpl; [reflexivity|].
  rewrite IH. f_equal. apply forallb_filter_id, forallb_forall.
  intros z Hz. apply negb_true_iff, String.eqb_neq. congruence.
Qed.

Lemma first_occurrences_again x a b :
  In x a ->
  first_occurrences (a ++ x :: b) = first_occurrences (a ++ b).
Proof.
  induction a as [|y a IH]; simpl; [contradiction|].
  intros [->|Hin].
  - f_equal. rewrite !filter_first_occurrences, !filter_app. simpl.
    now rewrite String.eqb_refl.
  - now rewrite IH.
Qed.

Lemma add_new_fold xs : forall acc,
  NoDup acc ->
  fold_left add_new xs acc = first_occurrences (acc ++ xs).
Proof.
  induction xs as [|x xs IH]; intros acc Hacc; simpl.
  - now rewrite app_nil_r, first_occurrences_id.
  - unfold add_new at 2. destruct (mem x acc) eqn:Hm.
    + apply mem_iff in Hm. now rewrite first_occurrences_again, IH.
    + rewrite IH, <- app_assoc; [reflexivity|].
      apply NoDup_app; [exact Hacc | repeat constructor; auto |].
      intros z Hz [<-|[]]. apply mem_iff in Hz. congruence.
Qed.

Lemma add_thumb_usable imgs a :
  add_thumb imgs a = fold_left add_new (map large_url (usable a)) imgs.
Proof.
  unfold add_thumb, usable. destruct a as [u|]; [|reflexivity].
  destruct (truthy u && startswith u "http"); [|reflexivity].
  simpl. unfold add_new. now destruct (mem (large_url u) imgs).
Qed.

Lemma thumbs_fold {A} (src : A -> option string) xs : forall imgs,
  fold_left (fun imgs x => add_thumb imgs (src x)) xs imgs
  = fold_left add_new
      (map large_url (flat_map (fun x => usable (src x)) xs)) imgs.
Proof.
  induction xs as [|x xs IH]; intros imgs; simpl; [reflexivity|].
  now rewrite IH, map_app, fold_left_app, add_thumb_usable.
Qed.

Lemma add_main_usable a : add_main [] a = usable a.
Proof.
  unfold add_main, usable. destruct a as [u|]; [|reflexivity].
  now destruct (truthy u && startswith u "http").
Qed.

Lemma usable_NoDup a : NoDup (usable a).
Proof.
  unfold usable. destruct a as [u|]; [|constructor].
  destruct (truthy u && startswith u "http"); repeat constructor; auto.
Qed.

Lemma usable_http a : all_http (usable a).
Proof.
  unfold usable, all_http. destruct a as [u|]; [|constructor].
  destruct (truthy u && startswith u "http") eqn:E; repeat constructor.
  now apply andb_true_iff in E.
Qed.

Lemma or_preferred a b : or_ a b = preferred a b.
Proof. destruct a as [[|c s]|]; reflexivity. Qed.

(** what one turn of the thumbnail loop keeps true *)
Lemma add_thumb_keeps imgs a :
  NoDup imgs /\ all_http imgs ->
  NoDup (add_thumb imgs a) /\ all_http (add_thumb imgs a).
Proof.
  intros [Hn Hh]. unfold add_thumb. destruct a as [u|]; [|auto].
  destruct (truthy u && startswith u "http") eqn:E; [|auto].
  apply andb_true_iff in E as [_ E].
  destruct (mem (large_url u) imgs) eqn:Hm; simpl; [auto|]. split.
  - apply NoDup_app; [exact Hn | repeat constructor; auto |].
    intros z Hz [<-|[]]. apply mem_iff in Hz. congruence.
  - apply Forall_app. split; [exact Hh|].
    repeat constructor. now apply large_url_http.
Qed.

End Loops.

(** ** The extractors, step by step *)

Section Extractors.
Import Py Common Spec.

Lemma soup_rating soup el :
  Soup.select_one soup (SELECTORS avg_rating) = Some el ->
  Soup.extract_avg_rating soup = rating_of_text (Soup.get_text el).
Proof. unfold Soup.extract_avg_rating. now intros ->. Qed.

Lemma soup_count soup el :
  Soup.select_one soup (SELECTORS review_count) = Some el ->
  Soup.extract_review_count soup = count_of_text (Soup.get_text el).
Proof. unfold Soup.extract_review_count. now intros ->. Qed.

Lemma page_rating page h rest t :
  Playwright.query_selector_all page (SELECTORS avg_rating)
    = Playwright.Ok (h :: rest) ->
  Playwright.inner_text h = Playwright.Ok t ->
  Playwright.extract_avg_rating page
    = Playwright.Ok (rating_of_text (strip t)).
Proof.
  intros Hq Ht. unfold Playwright.extract_avg_rating, Playwright.query_selector.
  rewrite Hq. simpl. now rewrite Ht.
Qed.

Lemma page_count page h rest t :
  Playwright.query_selector_all page (SELECTORS review_count)
    = Playwright.Ok (h :: rest) ->
  Playwright.inner_text h = Playwright.Ok t ->
  Playwright.extract_review_count page
    = Playwright.Ok (count_of_text (strip t)).
Proof.
  intros Hq Ht. unfold Playwright.extract_review_count, Playwright.query_selector.
  rewrite Hq. simpl. now rewrite Ht.
Qed.

Lemma rating_none t : ~ is_substring "out of" t -> rating_of_text t = None.
Proof.
  intros Hno. destruct (rating_of_text t) eqn:E; [|reflexivity].
  now apply rating_needs_out_of in E.
Qed.

Lemma count_none t : re.search count_pattern t = None -> count_of_text t = None.
Proof. unfold count_of_text. now intros ->. Qed.

Lemma page_text_ok page k : exists v, Playwright.text_of page k = Playwright.Ok v.
Proof.
  unfold Playwright.text_of, Playwright.query_selector.
  destruct (Playwright.query_selector_all page (SELECTORS k)) as [[|h r]|e];
    simpl; eauto.
  destruct (Playwright.inner_text h); simpl; eauto.
Qed.

Lemma keyword_nonempty k :
  In k ["out of stock"; "unavailable"; "currently unavailable"] ->
  ~ is_substring k "".
Proof.
  intros Hk [pre [post H]].
  destruct pre; simpl in H; [|discriminate].
  destruct Hk as [<-|[<-|[<-|[]]]]; discriminate.
Qed.

Lemma out_of_stock_of_iff a :
  out_of_stock_of a = true <->
  exists s, a = Some s /\
    exists k, In k ["out of stock"; "unavailable"; "currently unavailable"]
              /\ is_substring k (lower s).
Proof.
  unfold out_of_stock_of. destruct a as [s|].
  - destruct s as [|c s].
    + simpl. split; [discriminate|].
      intros [s [[= <-] [k [Hk Hs]]]]. now apply keyword_nonempty in Hs.
    + cbn [truthy]. rewrite existsb_exists. split.
      * intros [k [Hk Hc]]. exists (String c s). split; [reflexivity|].
        exists k. split; [exact Hk | now apply contains_iff].
      * intros [s' [[= <-] [k [Hk Hs]]]]. exists k.
        split; [exact Hk | now apply contains_iff].
  - split; [discriminate | intros [s [H _]]; discriminate].
Qed.

End Extractors.

(** ** The sequence fields *)

Section Sequences.
Import Py Common Spec.

Lemma soup_features soup :
  Soup.extract_features soup
  = filter long_enough
      (map Soup.get_text (Soup.select soup (SELECTORS features))).
Proof. unfold Soup.extract_features. now rewrite features_fold. Qed.

(** the candidate the main image gives *)
Lemma soup_main soup :
  match Soup.select_one soup (SELECTORS images) with
  | Some main_img =>
      add_main [] (or_ (Soup.get main_img "data-old-hires")
                       (Soup.get main_img "src"))
  | None => []
  end
  = match Soup.select_one soup (SELECTORS images) with
    | Some main_img =>
        usable (preferred (Soup.get main_img "data-old-hires")
                          (Soup.get main_img "src"))
    | None => []
    end.
Proof.
  destruct (Soup.select_one soup (SELECTORS images)); [|reflexivity].
  now rewrite add_main_usable, or_preferred.
Qed.

Lemma soup_images soup :
  Soup.extract_images soup
  = first_occurrences
      (match Soup.select_one soup (SELECTORS images) with
       | Some main_img =>
           usable (preferred (Soup.get main_img "data-old-hires")
                             (Soup.get main_img "src"))
       | None => []
       end
       ++ map large_url
            (flat_map (fun thumb => usable (Soup.get thumb "src"))
                      (Soup.select soup THUMBNAILS)))%list.
Proof.
  unfold Soup.extract_images. cbv zeta. rewrite soup_main, thumbs_fold.
  apply add_new_fold.
  destruct (Soup.select_one soup (SELECTORS images));
    [apply usable_NoDup | constructor].
Qed.

Lemma first_occurrences_http l : all_http l -> all_http (first_occurrences l).
Proof.
  unfold all_http. rewrite !Forall_forall. intros H x Hx.
  apply H. now apply first_occurrences_In.
Qed.

Lemma map_large_http l : all_http l -> all_http (map large_url l).
Proof.
  unfold all_http. intros H. apply Forall_map.
  eapply Forall_impl; [|exact H]. intros u. apply large_url_http.
Qed.

Lemma flat_usable_http {A} (src : A -> option string) xs :
  all_http (flat_map (fun x => usable (src x)) xs).
Proof.
  unfold all_http. apply Forall_flat_map, Forall_forall.
  intros x _. apply usable_http.
Qed.

Lemma soup_images_http soup : all_http (Soup.extract_images soup).
Proof.
  rewrite soup_images. apply first_occurrences_http, Forall_app. split.
  - destruct (Soup.select_one soup (SELECTORS images));
      [apply usable_http | constructor].
  - apply map_large_http, flat_usable_http.
Qed.

Lemma usable_startswith u :
  startswith u "http" = true -> usable (Some u) = [u].
Proof.
  intros H. unfold usable. rewrite H.
  destruct u; [discriminate | reflexivity].
Qed.

Lemma in_flat_usable {A} (src : A -> option string) xs x u :
  In x xs -> src x = Some u -> startswith u "http" = true ->
  In u (flat_map (fun x => usable (src x)) xs).
Proof.
  intros Hx Hs Hu. apply in_flat_map. exists x. split; [exact Hx|].
  rewrite Hs, (usable_startswith _ Hu). now left.
Qed.

(** *** Loops that may raise *)

Lemma for_each_keeps {A} (P : list string -> Prop) (xs : list A) body :
  (forall x l, P l -> P (snd (body x l))) ->
  forall l, P l -> P (snd (Playwright.for_each xs body l)).
Proof.
  intros Hbody. induction xs as [|x xs IH]; intros l Hl; simpl; [exact Hl|].
  unfold Playwright.fbind. specialize (Hbody x l Hl).
  destruct (body x l) as [[[]|e] l']; simpl in *; auto.
Qed.

Lemma for_each_calm {A B} (xs : list A) (ys : list B)
      (ask : A -> Playwright.result B) (step : list string -> B -> list string) :
  Forall2 (fun x y => ask x = Playwright.Ok y) xs ys ->
  forall l,
    Playwright.for_each xs
      (fun x => Playwright.fbind (Playwright.call (ask x))
                  (fun y => Playwright.update (fun l => step l y))) l
    = (Playwright.Ok tt, fold_left step ys l).
Proof.
  induction 1 as [|x y xs ys Hxy _ IH]; intros l; simpl; [reflexivity|].
  unfold Playwright.fbind at 1. unfold Playwright.fbind at 1.
  unfold Playwright.call, Playwright.update. rewrite Hxy. apply IH.
Qed.

(** an exception in the middle of the loop leaves what was collected *)
Lemma for_each_raise {A B} (xs : list A) (ys : list B) (bad : A) rest e
      (ask : A -> Playwright.result B) (step : list string -> B -> list string) :
  Forall2 (fun x y => ask x = Playwright.Ok y) xs ys ->
  ask bad = Playwright.Raise e ->
  forall l,
    Playwright.for_each (xs ++ bad :: rest)%list
      (fun x => Playwright.fbind (Playwright.call (ask x))
                  (fun y => Playwright.update (fun l => step l y))) l
    = (Playwright.Raise e, fold_left step ys l).
Proof.
  intros Hxs Hbad.
  induction Hxs as [|x y xs ys Hxy _ IH]; intros l; simpl.
  - unfold Playwright.fbind, Playwright.call. now rewrite Hbad.
  - unfold Playwright.fbind at 1. unfold Playwright.fbind at 1.
    unfold Playwright.call, Playwright.update. rewrite Hxy. apply IH.
Qed.

Lemma page_features page els ts :
  Playwright.query_selector_all page (SELECTORS features) = Playwright.Ok els ->
  Forall2 (fun e t => Playwright.inner_text e = Playwright.Ok t) els ts ->
  Playwright.extract_features page
  = Playwright.Ok (filter long_enough (map strip ts)).
Proof.
  intros Hq Hts. unfold Playwright.extract_features, Playwright.collect.
  unfold Playwright.fbind at 1. unfold Playwright.call at 1. rewrite Hq.
  rewrite (for_each_calm els ts Playwright.inner_text
             (fun l t => add_feature l (strip t)) Hts).
  simpl. now rewrite (features_fold strip ts []).
Qed.

Lemma page_features_raise page els ts bad rest e :
  Playwright.query_selector_all page (SELECTORS features)
    = Playwright.Ok (els ++ bad :: rest)%list ->
  Forall2 (fun e t => Playwright.inner_text e = Playwright.Ok t) els ts ->
  Playwright.inner_text bad = Playwright.Raise e ->
  Playwright.extract_features page
  = Playwright.Ok (filter long_enough (map strip ts)).
Proof.
  intros Hq Hts Hbad. unfold Playwright.extract_features, Playwright.collect.
  unfold Playwright.fbind at 1. unfold Playwright.call at 1. rewrite Hq.
  rewrite (for_each_raise els ts bad rest e Playwright.inner_text
             (fun l t => add_feature l (strip t)) Hts Hbad).
  simpl. now rewrite (features_fold strip ts []).
Qed.

Lemma page_features_ok page :
  exists l, Playwright.extract_features page = Playwright.Ok l.
Proof. unfold Playwright.extract_features, Playwright.collect. eauto. Qed.

Lemma page_images_ok page :
  exists l, Playwright.extract_images page = Playwright.Ok l.
Proof. unfold Playwright.extract_images, Playwright.collect. eauto. Qed.

(** Whatever the browser does, what holds of the empty list and is kept
    by both ways of adding an image holds of the images collected. *)
Lemma page_images_invariant page (P : list string -> Prop) :
  P [] ->
  (forall a, P (add_main [] a)) ->
  (forall l a, P l -> P (add_thumb l a)) ->
  exists l, Playwright.extract_images page = Playwright.Ok l /\ P l.
Proof.
  intros Hnil Hadd Hthumb.
  unfold Playwright.extract_images, Playwright.collect.
  eexists. split; [reflexivity|].
  unfold Playwright.fbind at 1. unfold Playwright.call at 1.
  destruct (Playwright.query_selector page (SELECTORS images)) as [main|e];
    [|exact Hnil].
  unfold Playwright.fbind at 1.
  assert (Hmain : forall r l',
    match main with
    | Some main_img =>
        Playwright.fbind
          (Playwright.call
             (Playwright.attribute_or main_img "data-old-hires" "src"))
          (fun img_url =>
             Playwright.update (fun images => add_main images img_url))
    | None => Playwright.fret tt
    end [] = (r, l') -> P l').
  { intros r l'. destruct main as [m|].
    - unfold Playwright.fbind, Playwright.call, Playwright.update.
      destruct (Playwright.attribute_or m "data-old-hires" "src") as [a|e'].
      + intros [= _ <-]. apply Hadd.
      + intros [= _ <-]. exact Hnil.
    - intros [= _ <-]. exact Hnil. }
  match goal with
  | |- context [match ?m [] with pair _ _ => _ end] =>
      destruct (m []) as [[[]|e] l']; [|exact (Hmain _ _ eq_refl)]
  end.
  specialize (Hmain _ _ eq_refl).
  unfold Playwright.fbind at 1. unfold Playwright.call at 1.
  destruct (Playwright.query_selector_all page THUMBNAILS) as [ths|e];
    [|exact Hmain].
  apply (for_each_keeps P); [|exact Hmain].
  intros thumb l Hl. unfold Playwright.fbind, Playwright.call, Playwright.update.
  destruct (Playwright.get_attribute thumb "src") as [a|e]; simpl; [|exact Hl].
  now apply Hthumb.
Qed.

Lemma page_images_keeps page :
  exists l, Playwright.extract_images page = Playwright.Ok l
            /\ NoDup l /\ all_http l.
Proof.
  apply (page_images_invariant page (fun l => NoDup l /\ all_http l)).
  - split; constructor.
  - intros a. rewrite add_main_usable.
    split; [apply usable_NoDup | apply usable_http].
  - intros l a. apply add_thumb_keeps.
Qed.

(** the main image, when the browser answers the calls about it *)
Lemma page_main mains hires src :
  (forall m, hd_error mains = Some m ->
     Playwright.get_attribute m "data-old-hires" = Playwright.Ok hires
     /\ Playwright.get_attribute m "src" = Playwright.Ok src) ->
  match hd_error mains with
  | Some main_img =>
      Playwright.fbind
        (Playwright.call
           (Playwright.attribute_or main_img "data-old-hires" "src"))
        (fun img_url =>
           Playwright.update (fun images => add_main images img_url))
  | None => Playwright.fret tt
  end []
  = (Playwright.Ok tt,
     match mains with [] => [] | _ => usable (preferred hires src) end).
Proof.
  intros Hattr. destruct mains as [|m mains']; [reflexivity|].
  destruct (Hattr m eq_refl) as [Hh Hs].
  change (hd_error (m :: mains')) with (Some m). cbv iota.
  unfold Playwright.fbind, Playwright.call, Playwright.update,
    Playwright.attribute_or.
  rewrite Hh. simpl. rewrite <- or_preferred, <- add_main_usable.
  unfold or_. destruct (truthy_opt hires); [reflexivity|].
  now rewrite Hs.
Qed.

(** When the browser answers every call, the Playwright script collects
    the images the way the BeautifulSoup script does. *)
Lemma page_images page mains hires src ths srcs :
  Playwright.query_selector_all page (SELECTORS images) = Playwright.Ok mains ->
  (forall m, hd_error mains = Some m ->
     Playwright.get_attribute m "data-old-hires" = Playwright.Ok hires
     /\ Playwright.get_attribute m "src" = Playwright.Ok src) ->
  Playwright.query_selector_all page THUMBNAILS = Playwright.Ok ths ->
  Forall2 (fun th a => Playwright.get_attribute th "src" = Playwright.Ok a)
          ths srcs ->
  Playwright.extract_images page
  = Playwright.Ok
      (first_occurrences
         (match mains with
          | [] => []
          | _ => usable (preferred hires src)
          end ++ map large_url (flat_map usable srcs))%list).
Proof.
  intros Hq Hattr Hq2 Hsrcs.
  unfold Playwright.extract_images, Playwright.collect, Playwright.query_selector.
  rewrite Hq. f_equal.
  unfold Playwright.fbind at 1. unfold Playwright.call at 1. simpl Playwright.rbind.
  unfold Playwright.fbind at 1. rewrite (page_main mains hires src Hattr).
  unfold Playwright.fbind at 1. unfold Playwright.call at 1. rewrite Hq2.
  rewrite (for_each_calm ths srcs
             (fun th => Playwright.get_attribute th "src")
             (fun l a => add_thumb l a) Hsrcs).
  simpl snd.
  rewrite (thumbs_fold (fun a : option string => a)).
  apply add_new_fold.
  destruct mains; [constructor | apply usable_NoDup].
Qed.


End Sequences.

(** ** The record, field by field *)

Section Record.
Import Py Common Spec.

Lemma page_rating_ok page :
  exists v, Playwright.extract_avg_rating page = Playwright.Ok v.
Proof.
  unfold Playwright.extract_avg_rating, Playwright.query_selector.
  destruct (Playwright.query_selector_all page (SELECTORS avg_rating))
    as [[|h r]|e]; simpl; eauto.
  destruct (Playwright.inner_text h); simpl; eauto.
Qed.

Lemma page_count_ok page :
  exists v, Playwright.extract_review_count page = Playwright.Ok v.
Proof.
  unfold Playwright.extract_review_count, Playwright.query_selector.
  destruct (Playwright.query_selector_all page (SELECTORS review_count))
    as [[|h r]|e]; simpl; eauto.
  destruct (Playwright.inner_text h); simpl; eauto.
Qed.

Lemma page_category_ok page :
  exists v, Playwright.extract_category page = Playwright.Ok v.
Proof.
  unfold Playwright.extract_category.
  destruct (Playwright.query_selector_all page (SELECTORS category))
    as [[|h r]|e]; simpl; eauto.
  destruct (Playwright.inner_text h); simpl; eauto.
  destruct (Playwright.texts r); simpl; eauto.
Qed.

(** Every extractor of the Playwright script returns: the dictionary is
    always built. *)
Lemma page_data page url :
  Playwright.product_data page url = Playwright.Ok (settled page url).
Proof.
  unfold Playwright.product_data, settled, Playwright.extract_out_of_stock,
    Playwright.extract_title, Playwright.extract_price,
    Playwright.extract_availability, Playwright.extract_description,
    Playwright.extract_ships_from, Playwright.extract_sold_by.
  destruct (page_text_ok page title) as [v1 ->].
  destruct (page_text_ok page price) as [v2 ->].
  destruct (page_rating_ok page) as [v3 ->].
  destruct (page_count_ok page) as [v4 ->].
  destruct (page_text_ok page availability) as [v5 ->].
  destruct (page_text_ok page description) as [v6 ->].
  destruct (page_features_ok page) as [v7 ->].
  destruct (page_images_ok page) as [v8 ->].
  destruct (page_category_ok page) as [v9 ->].
  destruct (page_text_ok page ships_from) as [v10 ->].
  destruct (page_text_ok page sold_by) as [v11 ->].
  reflexivity.
Qed.








End Record.

(** ** The claims of the specification *)

Section Claims.
Import Py Common Spec.

(** C2: the out_of_stock flag is true exactly when the extracted
    availability is not null and its lowercased text contains
    "out of stock", "unavailable" or "currently unavailable"; it is
    false otherwise, a null availability included.  Both scripts. *)
Theorem out_of_stock_iff_availability :
  (forall soup,
     Soup.extract_out_of_stock soup = true <->
     exists a, Soup.extract_availability soup = Some a /\
       exists k,
         In k ["out of stock"; "unavailable"; "currently unavailable"]
         /\ is_substring k (lower a))
  /\
  (forall page, exists flag availability,
     Playwright.extract_out_of_stock page = Playwright.Ok flag
     /\ Playwright.extract_availability page = Playwright.Ok availability
     /\ (flag = true <->
         exists a, availability = Some a /\
           exists k,
             In k ["out of stock"; "unavailable"; "currently unavailable"]
             /\ is_substring k (lower a))).
Proof.
  split.
  - intros soup. unfold Soup.extract_out_of_stock. apply out_of_stock_of_iff.
  - intros page. unfold Playwright.extract_out_of_stock,
      Playwright.extract_availability.
    destruct (page_text_ok page availability) as [v Hv]. rewrite Hv. simpl.
    exists (out_of_stock_of v), v.
    repeat split; try reflexivity; apply out_of_stock_of_iff.
Qed.

(** C6, at the failing input: on a review-count element whose text is a
    lone comma, and on one whose number follows a comma, the review
    count is the empty string, not null and not a number. *)
Theorem review_count_empty_string :
  Soup.extract_review_count Samples.comma_soup = Some ""
  /\ Playwright.extract_review_count Samples.comma_page
     = Playwright.Ok (Some "")
  /\ Soup.extract_review_count Samples.late_number_soup = Some "".
Proof. repeat split; reflexivity. Qed.

(** C7: on an element whose text is "1,234 ratings" the review count is
    "1234"; it is null for every text the digit-group pattern does not
    match, which are the texts without a digit or a comma.  Both
    scripts. *)
Theorem review_count_of_text soup el page h rest t
  (Hsoup : Soup.select_one soup (SELECTORS review_count) = Some el)
  (Hpage : Playwright.query_selector_all page (SELECTORS review_count)
           = Playwright.Ok (h :: rest))
  (Htext : Playwright.inner_text h = Playwright.Ok t) :
  (Soup.get_text el = "1,234 ratings" ->
   Soup.extract_review_count soup = Some "1234")
  /\ (strip t = "1,234 ratings" ->
      Playwright.extract_review_count page = Playwright.Ok (Some "1234"))
  /\ (re.search count_pattern (Soup.get_text el) = None ->
      Soup.extract_review_count soup = None)
  /\ (re.search count_pattern (strip t) = None ->
      Playwright.extract_review_count page = Playwright.Ok None)
  /\ (forall text,
        re.search count_pattern text = None <->
        all (fun c => negb (isdigit c || Ascii.eqb c ",")) text = true).
Proof.
  rewrite (soup_count _ _ Hsoup), (page_count _ _ _ _ Hpage Htext).
  repeat split.
  - now intros ->.
  - now intros ->.
  - apply count_none.
  - intros H. now rewrite (count_none _ H).
  - apply count_search_none.
  - apply count_search_none.
Qed.

Lemma review_count_of_text_witness :
  Soup.extract_review_count Samples.rated_soup = Some "1234"
  /\ Playwright.extract_review_count Samples.rated_page
     = Playwright.Ok (Some "1234").
Proof.
  destruct (review_count_of_text Samples.rated_soup
              (Samples.tag "1,234 ratings" [])
              Samples.rated_page (Samples.handle "1,234 ratings" []) []
              "1,234 ratings" eq_refl eq_refl eq_refl)
    as [H1 [H2 _]].
  split; [apply H1 | apply H2]; reflexivity.
Defined.

(** C8: on an element whose text is "4.5 out of 5 stars" the average
    rating is "4.5"; on any text that does not contain "out of" it is
    null.  Both scripts. *)
Theorem avg_rating_of_text soup el page h rest t
  (Hsoup : Soup.select_one soup (SELECTORS avg_rating) = Some el)
  (Hpage : Playwright.query_selector_all page (SELECTORS avg_rating)
           = Playwright.Ok (h :: rest))
  (Htext : Playwright.inner_text h = Playwright.Ok t) :
  (Soup.get_text el = "4.5 out of 5 stars" ->
   Soup.extract_avg_rating soup = Some "4.5")
  /\ (strip t = "4.5 out of 5 stars" ->
      Playwright.extract_avg_rating page = Playwright.Ok (Some "4.5"))
  /\ (~ is_substring "out of" (Soup.get_text el) ->
      Soup.extract_avg_rating soup = None)
  /\ (~ is_substring "out of" (strip t) ->
      Playwright.extract_avg_rating page = Playwright.Ok None).
Proof.
  rewrite (soup_rating _ _ Hsoup), (page_rating _ _ _ _ Hpage Htext).
  repeat split.
  - now intros ->.
  - now intros ->.
  - apply rating_none.
  - intros H. now rewrite (rating_none _ H).
Qed.

Lemma avg_rating_of_text_witness :
  Soup.extract_avg_rating Samples.rated_soup = Some "4.5"
  /\ Playwright.extract_avg_rating Samples.rated_page
     = Playwright.Ok (Some "4.5").
Proof.
  destruct (avg_rating_of_text Samples.rated_soup
              (Samples.tag " 4.5 out of 5 stars " [])
              Samples.rated_page (Samples.handle " 4.5 out of 5 stars " []) []
              " 4.5 out of 5 stars " eq_refl eq_refl eq_refl)
    as [H1 [H2 _]].
  split; [apply H1 | apply H2]; reflexivity.
Defined.

(** C9, as amended: in the BeautifulSoup script the features are the
    matched elements whose text, every text node stripped and the pieces
    put together, is longer than five characters, in document order and
    without any de-duplication.  In the Playwright script the same holds
    of the stripped inner texts when the browser answers the query and
    every call of the loop; when reading an element raises, the features
    are those of the elements before it, and the elements after it are
    left out; when the query raises, the features are empty. *)
Theorem features_longer_than_five :
  (forall soup,
     Soup.extract_features soup
     = filter (fun text => (5 <? String.length text)%nat)
         (map Soup.get_text (Soup.select soup (SELECTORS features))))
  /\ (forall page els ts,
        Playwright.query_selector_all page (SELECTORS features)
          = Playwright.Ok els ->
        Forall2 (fun e t => Playwright.inner_text e = Playwright.Ok t)
                els ts ->
        Playwright.extract_features page
        = Playwright.Ok
            (filter (fun text => (5 <? String.length text)%nat)
                    (map strip ts)))
  /\ (forall page els ts bad rest e,
        Playwright.query_selector_all page (SELECTORS features)
          = Playwright.Ok (els ++ bad :: rest)%list ->
        Forall2 (fun e t => Playwright.inner_text e = Playwright.Ok t)
                els ts ->
        Playwright.inner_text bad = Playwright.Raise e ->
        Playwright.extract_features page
        = Playwright.Ok
            (filter (fun text => (5 <? String.length text)%nat)
                    (map strip ts)))
  /\ (forall page e,
        Playwright.query_selector_all page (SELECTORS features)
          = Playwright.Raise e ->
        Playwright.extract_features page = Playwright.Ok []).
Proof.
  repeat apply conj.
  - apply soup_features.
  - intros page els ts. apply page_features.
  - intros page els ts bad rest e. apply page_features_raise.
  - intros page e Hq. unfold Playwright.extract_features, Playwright.collect,
      Playwright.fbind, Playwright.call. now rewrite Hq.
Qed.

Lemma features_longer_than_five_witness :
  Playwright.extract_features Samples.bullets_page
  = Playwright.Ok ["Wireless"; "8K DPI sensor"; "Wireless"]
  /\ Playwright.extract_features Samples.torn_page
     = Playwright.Ok ["Wireless"].
Proof.
  destruct features_longer_than_five as [_ [Hcalm [Hcut _]]]. split.
  - exact (Hcalm Samples.bullets_page
             (map (fun t => Samples.handle t []) Samples.bullet_texts)
             Samples.bullet_texts eq_refl
             ltac:(repeat constructor)).
  - exact (Hcut Samples.torn_page
             [Samples.handle "  Wireless  " []; Samples.handle "USB" []]
             ["  Wireless  "; "USB"] Samples.broken
             [Samples.handle "Wireless" []] (Playwright.Error "detached")
             eq_refl ltac:(repeat constructor) eq_refl).
Defined.

(** C9 as stated fails in the Playwright script: on a page whose third
    bullet cannot be read, the fourth one, a matched element whose
    stripped text has eight characters, is not among the features. *)
Lemma features_cut_short :
  ~ (forall page els,
       Playwright.query_selector_all page (SELECTORS features)
         = Playwright.Ok els ->
       Playwright.extract_features page
       = Playwright.Ok
           (filter (fun text => (5 <? String.length text)%nat)
                   (readable_texts els))).
Proof.
  intros H. specialize (H Samples.torn_page _ eq_refl). discriminate H.
Qed.

(** C10: the size rewrite leaves a URL without any token of the form
    dot, underscore, capital letters, digits, underscore, dot as it is,
    and such a URL goes into the images unchanged; in a URL with such a
    token the leftmost one is replaced by "._AC_SL1500_." and the rest
    is rewritten the same way; the membership test and the append see the
    rewritten URL.  Both scripts. *)
Theorem thumbnail_size_rewrite :
  (forall u, ~ has_size_token u -> large_url u = u)
  /\ (forall u, has_size_token u ->
        exists pre t post,
          u = pre ++ t ++ post /\ is_size_token t
          /\ large_url u = pre ++ "._AC_SL1500_." ++ large_url post)
  /\ (forall images u, startswith u "http" = true ->
        add_thumb images (Some u)
        = if mem (large_url u) images then images
          else (images ++ [large_url u])%list)
  /\ (forall soup thumb u,
        In thumb (Soup.select soup THUMBNAILS) ->
        Soup.get thumb "src" = Some u ->
        startswith u "http" = true ->
        In (large_url u) (Soup.extract_images soup)
        /\ (~ has_size_token u -> In u (Soup.extract_images soup)))
  /\ (forall page imgs mains hires src thumbs thumb u,
        Playwright.extract_images page = Playwright.Ok imgs ->
        Playwright.query_selector_all page (SELECTORS images)
          = Playwright.Ok mains ->
        (forall m, hd_error mains = Some m ->
           Playwright.get_attribute m "data-old-hires" = Playwright.Ok hires
           /\ Playwright.get_attribute m "src" = Playwright.Ok src) ->
        Playwright.query_selector_all page THUMBNAILS = Playwright.Ok thumbs ->
        (forall th, In th thumbs ->
           exists a, Playwright.get_attribute th "src" = Playwright.Ok a) ->
        In thumb thumbs ->
        Playwright.get_attribute thumb "src" = Playwright.Ok (Some u) ->
        startswith u "http" = true ->
        In (large_url u) imgs /\ (~ has_size_token u -> In u imgs)).
Proof.
  split; [exact large_url_identity|].
  split; [exact large_url_leftmost|].
  split.
  { intros images u Hu. unfold add_thumb. rewrite Hu.
    destruct u; [discriminate|]. simpl.
    now destruct (mem (large_url (String a u)) images). }
  split.
  - intros soup thumb u Hin Hsrc Hu.
    assert (H : In (large_url u) (Soup.extract_images soup)).
    { rewrite soup_images. apply first_occurrences_In, in_or_app. right.
      apply in_map. now apply in_flat_usable with (x := thumb). }
    split; [exact H|]. intros Hno. now rewrite <- (large_url_identity u Hno) at 1.
  - intros page imgs mains hires src thumbs thumb u
           Himgs Hmain Hattrs Hths Hall Hin Hsrc Hu.
    assert (Hsrcs : exists srcs,
      Forall2 (fun th a => Playwright.get_attribute th "src" = Playwright.Ok a)
              thumbs srcs).
    { clear Hths Hin. induction thumbs as [|th ths IH]; [exists []; constructor|].
      destruct (Hall th (or_introl eq_refl)) as [a Ha].
      destruct IH as [srcs Hsrcs]; [intros th' Hth'; apply Hall; now right|].
      exists (a :: srcs). now constructor. }
    destruct Hsrcs as [srcs Hsrcs].
    assert (Hu_in : In (Some u) srcs).
    { clear Hths Hall. induction Hsrcs as [|th a ths srcs Ha _ IH];
        [contradiction|].
      destruct Hin as [->|Hin]; [left; congruence | right; now apply IH]. }
    rewrite (page_images page mains hires src thumbs srcs Hmain
               Hattrs Hths Hsrcs) in Himgs.
    injection Himgs as <-.
    match goal with |- In _ ?l /\ _ => assert (H : In (large_url u) l) end.
    { apply first_occurrences_In, in_or_app. right. apply in_map.
      apply in_flat_map. exists (Some u). split; [exact Hu_in|].
      rewrite (usable_startswith _ Hu). now left. }
    split; [exact H|]. intros Hno. now rewrite <- (large_url_identity u Hno) at 1.
Qed.

Lemma thumbnail_size_rewrite_witness :
  large_url "https://m.media-amazon.com/images/I/41xyz._AC_US40_.jpg"
  = "https://m.media-amazon.com/images/I/41xyz._AC_US40_.jpg"
  /\ In (large_url "https://m.media-amazon.com/images/I/71def._SX38_.jpg")
        (Soup.extract_images Samples.gallery_soup).
Proof.
  destruct thumbnail_size_rewrite as [Hid [_ [_ [Hsoup _]]]]. split.
  - apply Hid. intros H. apply has_token_search in H. now apply H.
  - refine (proj1 (Hsoup Samples.gallery_soup
             (Samples.tag "" [("src",
                "https://m.media-amazon.com/images/I/71def._SX38_.jpg")])
             "https://m.media-amazon.com/images/I/71def._SX38_.jpg" _ _ _)).
    + simpl. tauto.
    + reflexivity.
    + reflexivity.
Defined.

(** C5, as amended: the images hold no URL twice and only URLs that start
    with the characters http; they are the first occurrences, in order,
    of the main image's URL (its high-resolution attribute when that has
    a value, else its source attribute) followed by the rewritten
    thumbnail URLs.  In the Playwright script the first part holds
    whatever the browser does, the second when it answers every call. *)
Theorem images_distinct_and_http :
  (forall soup,
     NoDup (Soup.extract_images soup)
     /\ Forall (fun u => startswith u "http" = true) (Soup.extract_images soup)
     /\ Soup.extract_images soup
        = first_occurrences
            (match Soup.select_one soup (SELECTORS images) with
             | Some main_img =>
                 usable (preferred (Soup.get main_img "data-old-hires")
                                   (Soup.get main_img "src"))
             | None => []
             end
             ++ map large_url
                  (flat_map (fun thumb => usable (Soup.get thumb "src"))
                            (Soup.select soup THUMBNAILS)))%list)
  /\ (forall page, exists imgs,
        Playwright.extract_images page = Playwright.Ok imgs
        /\ NoDup imgs
        /\ Forall (fun u => startswith u "http" = true) imgs)
  /\ (forall page mains hires src thumbs srcs,
        Playwright.query_selector_all page (SELECTORS images)
          = Playwright.Ok mains ->
        (forall m, hd_error mains = Some m ->
           Playwright.get_attribute m "data-old-hires" = Playwright.Ok hires
           /\ Playwright.get_attribute m "src" = Playwright.Ok src) ->
        Playwright.query_selector_all page THUMBNAILS = Playwright.Ok thumbs ->
        Forall2 (fun th a => Playwright.get_attribute th "src" = Playwright.Ok a)
                thumbs srcs ->
        Playwright.extract_images page
        = Playwright.Ok
            (first_occurrences
               (match mains with
                | [] => []
                | _ => usable (preferred hires src)
                end ++ map large_url (flat_map usable srcs))%list)).
Proof.
  split; [|split].
  - intros soup. split; [|split].
    + rewrite soup_images. apply first_occurrences_NoDup.
    + apply soup_images_http.
    + apply soup_images.
  - apply page_images_keeps.
  - apply page_images.
Qed.

Lemma images_distinct_and_http_witness :
  Playwright.extract_images Samples.gallery_page
  = Playwright.Ok
      ["https://m.media-amazon.com/images/I/61abc._AC_SL1500_.jpg";
       "https://m.media-amazon.com/images/I/41xyz._AC_US40_.jpg";
       "https://m.media-amazon.com/images/I/71def._AC_SL1500_.jpg"].
Proof.
  destruct images_distinct_and_http as [_ [_ Hcalm]].
  rewrite (Hcalm Samples.gallery_page
             [Samples.handle "" Samples.main_attrs]
             (Some "https://m.media-amazon.com/images/I/61abc._AC_SL1500_.jpg")
             (Some "https://m.media-amazon.com/images/I/61abc._AC_SY355_.jpg")
             (map (fun u => Samples.handle "" [("src", u)]) Samples.thumb_sources)
             (map Some Samples.thumb_sources)).
  - reflexivity.
  - reflexivity.
  - intros m [= <-]. split; reflexivity.
  - reflexivity.
  - repeat constructor.
Defined.

(** C5 as stated fails: a main image whose source attribute is the
    relative path httpdocs/main.jpg passes the test on the first four
    characters, so the images hold a URL that is not absolute. *)
Lemma images_relative_url :
  ~ Forall (fun u => absolute_http_url u = true)
           (Soup.extract_images Samples.relative_soup).
Proof. intros H. inversion H as [|u l Hu _]. discriminate Hu. Qed.


(** C3: when the page was fetched and no selector matches anything in
    it, scrape_amazon_product returns a record with the thirteen keys,
    every scalar null, features and images empty, out_of_stock false and
    url the address asked for; the run prints it and ends with status 0.
    The dictionary the Playwright script builds from such a page is the
    same. *)
Theorem empty_document_record requests_get http_error_text lxml url soup
  (Hfetch : Soup.fetch_body requests_get http_error_text lxml url = inr soup)
  (Hempty : forall selector, Soup.select soup selector = []) :
  (forall w,
     Soup.scrape_amazon_product requests_get http_error_text lxml url w
     = (Some [ ("title", VNone); ("price", VNone); ("avg_rating", VNone);
               ("review_count", VNone); ("availability", VNone);
               ("out_of_stock", VBool false); ("description", VNone);
               ("features", VList []); ("images", VList []);
               ("category", VNone); ("ships_from", VNone);
               ("sold_by", VNone); ("url", VStr url) ], w))
  /\ (url = TARGET_URL ->
      Soup.main requests_get http_error_text lxml
      = {| output := {| stdout := [banner; Json (null_record TARGET_URL)];
                        stderr := [] |};
           exit_status := 0 |})
  /\ (forall page,
        (forall selector,
           Playwright.query_selector_all page selector = Playwright.Ok []) ->
        Playwright.product_data page url = Playwright.Ok (null_record url)).
Proof.
  assert (Hdata : Soup.product_data soup url = null_record url).
  { unfold Soup.product_data, Soup.extract_title, Soup.extract_price,
      Soup.extract_avg_rating, Soup.extract_review_count,
      Soup.extract_out_of_stock, Soup.extract_availability,
      Soup.extract_description, Soup.extract_features, Soup.extract_images,
      Soup.extract_category, Soup.extract_ships_from, Soup.extract_sold_by,
      Soup.text_of, Soup.select_one.
    rewrite !Hempty. reflexivity. }
  assert (Hscrape : forall u w,
    Soup.fetch_body requests_get http_error_text lxml u = inr soup ->
    Soup.scrape_amazon_product requests_get http_error_text lxml u w
    = (Some (Soup.product_data soup u), w)).
  { intros u w Hu. unfold Soup.scrape_amazon_product, Soup.fetch_page, bind.
    rewrite Hu. reflexivity. }
  split; [|split].
  - intros w. rewrite (Hscrape url w Hfetch), Hdata. reflexivity.
  - intros ->. unfold Soup.main, Soup.main_io, bind.
    cbn [print fst snd]. rewrite (Hscrape TARGET_URL _ Hfetch), Hdata.
    reflexivity.
  - intros page Hnone.
    unfold Playwright.product_data, Playwright.extract_title,
      Playwright.extract_price, Playwright.extract_avg_rating,
      Playwright.extract_review_count, Playwright.extract_out_of_stock,
      Playwright.extract_availability, Playwright.extract_description,
      Playwright.extract_features, Playwright.extract_images,
      Playwright.extract_category, Playwright.extract_ships_from,
      Playwright.extract_sold_by, Playwright.text_of, Playwright.collect,
      Playwright.query_selector, Playwright.fbind, Playwright.call.
    rewrite !Hnone. reflexivity.
Qed.

Lemma empty_document_record_witness :
  Soup.main Samples.answering Samples.error_text Samples.parse_blank
  = {| output := {| stdout := [banner; Json (null_record TARGET_URL)];
                    stderr := [] |};
       exit_status := 0 |}.
Proof.
  exact (proj1 (proj2 (empty_document_record
           Samples.answering Samples.error_text Samples.parse_blank
           TARGET_URL Samples.empty_soup eq_refl (fun _ => eq_refl)))
         eq_refl).
Defined.

(** C4: when the request times out, the connection fails or the server
    answers with an error status, scrape_amazon_product returns no record
    and leaves a message on the error stream; the run prints no record
    and ends with status 1.  The same holds of the Playwright script when
    the browser raises before the page is ready. *)
Theorem acquisition_failure_no_record requests_get http_error_text lxml url
  (Hfail : requests_get url = inl Soup.Timeout
           \/ requests_get url = inl Soup.ConnectionError
           \/ exists response,
                requests_get url = inr response
                /\ 400 <= Soup.status_code response < 600) :
  (forall w, exists message,
     Soup.scrape_amazon_product requests_get http_error_text lxml url w
     = (None, {| stdout := stdout w;
                 stderr := (stderr w ++ [message])%list |}))
  /\ (url = TARGET_URL ->
      let r := Soup.main requests_get http_error_text lxml in
      exit_status r = 1
      /\ stdout (output r) = [banner]
      /\ ~ printed_record (output r)
      /\ exists message,
           stderr (output r) = [message; "failed to scrape product data"])
  /\ (forall session e,
        Playwright.launch session = Playwright.Raise e
        \/ Playwright.goto session TARGET_URL = Playwright.Raise e
        \/ Playwright.wait_for_selector session "#productTitle"
           = Playwright.Raise e ->
        let r := Playwright.main session in
        exit_status r = 1
        /\ ~ printed_record (output r)
        /\ exists message,
             stderr (output r) = [message; "failed to scrape product data"]).
Proof.
  assert (Hscrape : forall w, exists message,
    Soup.scrape_amazon_product requests_get http_error_text lxml url w
    = (None, {| stdout := stdout w;
                stderr := (stderr w ++ [message])%list |})).
  { intros w.
    unfold Soup.scrape_amazon_product, Soup.fetch_page, Soup.fetch_body, bind.
    destruct Hfail as [H|[H|[response [H Hstatus]]]]; rewrite H.
    - eexists. reflexivity.
    - eexists. reflexivity.
    - unfold Soup.raise_for_status.
      replace (400 <=? Soup.status_code response)%nat with true
        by (symmetry; apply Nat.leb_le; lia).
      replace (Soup.status_code response <? 600)%nat with true
        by (symmetry; apply Nat.ltb_lt; lia).
      eexists. reflexivity. }
  assert (Hno : forall a b, ~ printed_record
                  {| stdout := [banner]; stderr := [a; b] |}).
  { intros a b [d [H|[]]]. discriminate H. }
  split; [exact Hscrape|split].
  - intros ->. unfold Soup.main, Soup.main_io, bind. cbn [print fst snd].
    match goal with
    | |- context [Soup.scrape_amazon_product _ _ _ _ ?w] =>
        destruct (Hscrape w) as [message Hm]; rewrite Hm
    end.
    cbn. repeat split; [apply Hno | now exists message].
  - intros session e Hraise. unfold Playwright.main, Playwright.main_io,
      Playwright.scrape_amazon_product, Playwright.scrape_body, bind.
    cbn [print fst snd].
    destruct Hraise as [H|[H|H]].
    + rewrite H. destruct e; cbn; repeat split; try apply Hno; eauto.
    + destruct (Playwright.launch session) as [[]|e'].
      * cbn. rewrite H. destruct e; cbn; repeat split;
          try (intros [d [Hd|[Hd|[]]]]; discriminate Hd); eauto.
      * destruct e'; cbn; repeat split; try apply Hno; eauto.
    + destruct (Playwright.launch session) as [[]|e'].
      * cbn. destruct (Playwright.goto session TARGET_URL) as [[]|e''].
        -- cbn. rewrite H. destruct e; cbn; repeat split;
             try (intros [d [Hd|[Hd|[]]]]; discriminate Hd); eauto.
        -- destruct e''; cbn; repeat split;
             try (intros [d [Hd|[Hd|[]]]]; discriminate Hd); eauto.
      * destruct e'; cbn; repeat split; try apply Hno; eauto.
Qed.

Lemma acquisition_failure_no_record_witness :
  exit_status (Soup.main Samples.refusing Samples.error_text Samples.parse_blank)
  = 1
  /\ exit_status (Soup.main Samples.overloaded Samples.error_text
                            Samples.parse_blank) = 1.
Proof.
  split.
  - exact (proj1 (proj1 (proj2 (acquisition_failure_no_record
             Samples.refusing Samples.error_text Samples.parse_blank
             TARGET_URL (or_intror (or_introl eq_refl)))) eq_refl)).
  - refine (proj1 (proj1 (proj2 (acquisition_failure_no_record
             Samples.overloaded Samples.error_text Samples.parse_blank
             TARGET_URL
             (or_intror (or_intror (ex_intro _
                {| Soup.status_code := 503; Soup.content := "" |}
                (conj eq_refl _)))))) eq_refl)).
    simpl. lia.
Defined.






End Claims.


(** ** Beyond the claims: the text of a field *)

Section Trimming.
Import Py Common Spec.

Lemma lstrip_head s : starts_with_space (lstrip s) = false.
Proof.
  induction s as [|c s IH]; simpl; [reflexivity|].
  destruct (isspace c) eqn:E; [exact IH | simpl; exact E].
Qed.

Lemma rstrip_last s : ends_with_space (rstrip s) = false.
Proof.
  induction s as [|c s IH]; [reflexivity|].
  cbn [rstrip]. destruct (rstrip s) as [|d r].
  - destruct (isspace c) eqn:E; [reflexivity | simpl; exact E].
  - exact IH.
Qed.

Lemma rstrip_head s :
  starts_with_space s = false -> starts_with_space (rstrip s) = false.
Proof.
  destruct s as [|c s]; [reflexivity|]. cbn [rstrip starts_with_space].
  intros E. destruct (rstrip s); [rewrite E|]; exact E.
Qed.

Lemma strip_trimmed s : trimmed (strip s).
Proof.
  split; [apply rstrip_head, lstrip_head | apply rstrip_last].
Qed.

Lemma starts_append a b :
  a <> "" -> starts_with_space (a ++ b) = starts_with_space a.
Proof. destruct a; [contradiction | reflexivity]. Qed.

Lemma ends_append a b :
  b <> "" -> ends_with_space (a ++ b) = ends_with_space b.
Proof.
  intros Hb. induction a as [|c a IH]; [reflexivity|].
  simpl append. cbn [ends_with_space].
  destruct (a ++ b) eqn:E; [|exact IH].
  destruct a; simpl in E; [contradiction | discriminate].
Qed.

Lemma pieces_trimmed pieces :
  Forall (fun p => p <> "" /\ trimmed p) pieces ->
  trimmed (String.concat "" pieces)
  /\ (pieces <> [] -> String.concat "" pieces <> "").
Proof.
  induction 1 as [|x l [Hx [Hh Hl]] _ [[IHh IHl] IHn]].
  - split; [split; reflexivity | intros H; contradiction].
  - destruct l as [|y l'].
    + simpl. split; [split; assumption | intros _; exact Hx].
    + change (String.concat "" (x :: y :: l'))
        with (x ++ "" ++ String.concat "" (y :: l')).
      simpl append at 2.
      assert (Hn : String.concat "" (y :: l') <> "") by (apply IHn; discriminate).
      split; [split|].
      * now rewrite starts_append.
      * now rewrite ends_append.
      * intros _ E. destruct x; [contradiction | discriminate].
Qed.

Lemma get_text_trimmed el : trimmed (Soup.get_text el).
Proof.
  unfold Soup.get_text. apply pieces_trimmed, Forall_forall.
  intros p Hp. apply filter_In in Hp as [Hin Ht].
  apply in_map_iff in Hin as [s [<- _]].
  split; [intros E; rewrite E in Ht; discriminate | apply strip_trimmed].
Qed.

Lemma soup_text_trimmed soup k v : Soup.text_of soup k = Some v -> trimmed v.
Proof.
  unfold Soup.text_of. destruct (Soup.select_one soup (SELECTORS k));
    [intros [= <-]; apply get_text_trimmed | discriminate].
Qed.

Lemma soup_text_none soup k :
  Soup.text_of soup k = None <-> Soup.select soup (SELECTORS k) = [].
Proof.
  unfold Soup.text_of, Soup.select_one.
  destruct (Soup.select soup (SELECTORS k)); simpl; split;
    intros H; auto; discriminate.
Qed.

Lemma page_text_trimmed page k v :
  Playwright.text_of page k = Playwright.Ok (Some v) -> trimmed v.
Proof.
  unfold Playwright.text_of, Playwright.query_selector.
  destruct (Playwright.query_selector_all page (SELECTORS k)) as [[|h r]|e];
    simpl; try discriminate.
  destruct (Playwright.inner_text h); simpl; [|discriminate].
  intros [= <-]. apply strip_trimmed.
Qed.

End Trimming.

(** ** Beyond the claims: what the patterns return *)

Section Groups.
Import Py Py.re Common Spec.

Lemma run_lits k : forall marks s ms rest,
  run (lits k) marks s = Some (ms, rest) -> s = k ++ rest /\ ms = marks.
Proof.
  induction k as [|c k IH]; intros marks s ms rest; simpl.
  - intros [= <- <-]. auto.
  - destruct s as [|d s]; simpl; [discriminate|].
    destruct (Ascii.eqb_spec c d) as [<-|]; [|discriminate].
    intros H. destruct (IH _ _ _ _ H) as [-> ->]. auto.
Qed.

Lemma rating_run s :
  run rating_pattern [] s
  = plus isdigit
      (opt (Ascii.eqb ".")
         (star isdigit
            (fun s3 => star isspace (run (lits "out of") [s; s3]) s3))) s.
Proof. reflexivity. Qed.

(** What a match of the rating pattern looks like. *)
Lemma rating_match from ms rest :
  run rating_pattern [] from = Some (ms, rest) ->
  exists whole dot fraction blanks,
    from = whole ++ dot ++ fraction ++ blanks ++ "out of" ++ rest
    /\ ms = [from; blanks ++ "out of" ++ rest]
    /\ whole <> "" /\ all isdigit whole = true
    /\ (dot = "" \/ dot = ".")
    /\ all isdigit fraction = true
    /\ all isspace blanks = true.
Proof.
  rewrite rating_run. intros H.
  apply plus_sound in H as [w1 [s1 [E1 [[Hn1 Ha1] H]]]].
  apply opt_sound in H as [w2 [s2 [-> [Hw2 H]]]].
  apply star_sound in H as [w3 [s3 [-> [Ha3 H]]]].
  apply star_sound in H as [w4 [s4 [-> [Ha4 H]]]].
  apply run_lits in H as [-> ->].
  exists w1, w2, w3, w4. repeat split; auto.
  unfold item_word in Hw2. destruct Hw2 as [->|[c [-> Hc]]]; [now left|].
  apply Ascii.eqb_eq in Hc. subst c. now right.
Qed.

Lemma rating_shape t v :
  rating_of_text t = Some v -> decimal_text v /\ before_out_of v t.
Proof.
  unfold rating_of_text.
  destruct (search rating_pattern t) as [m|] eqn:Hs; [|discriminate].
  intros [= <-]. destruct (search_some _ _ _ Hs) as [pre [-> Hrun]].
  destruct m as [from [ms rest]]. cbn [m_from m_pos] in *.
  destruct (rating_match _ _ _ Hrun)
    as [w [d [f [b [Hfrom [-> [Hn [Hw [Hd [Hf Hb]]]]]]]]]].
  unfold group1. cbn [m_pos fst].
  assert (Hg : span from (b ++ "out of" ++ rest) = w ++ d ++ f).
  { rewrite Hfrom.
    replace (w ++ d ++ f ++ b ++ "out of" ++ rest)
      with ((w ++ d ++ f) ++ b ++ "out of" ++ rest)
      by now rewrite !append_assoc.
    apply span_append. }
  rewrite Hg. split.
  - exists w, d, f. auto.
  - exists pre, b, rest. split; [|exact Hb].
    now rewrite Hfrom, !append_assoc.
Qed.

(** The review count is read off the first run of digits and commas. *)
Lemma count_first_run pre w rest :
  all (fun c => negb (digit_or_comma c)) pre = true ->
  w <> "" -> all digit_or_comma w = true ->
  stops digit_or_comma rest ->
  count_of_text (pre ++ w ++ rest) = Some (replace "," "" w).
Proof.
  intros Hpre Hn Hw Hstop. unfold count_of_text.
  assert (Hs : search count_pattern (pre ++ w ++ rest)
               = Some {| m_from := w ++ rest;
                         m_pos := ([w ++ rest; rest], rest) |}).
  { induction pre as [|c pre IH].
    - destruct w as [|c w]; [contradiction|].
      simpl in Hw. apply andb_true_iff in Hw as [Hc Hw].
      simpl append. cbn [search]. rewrite count_run. cbn [plus]. rewrite Hc.
      rewrite (star_greedy digit_or_comma
                 (fun s' => Some ([String c (w ++ rest); s'], s'))
                 w rest ([String c (w ++ rest); rest], rest) Hw).
      + reflexivity.
      + intros d r ->. exact Hstop.
      + reflexivity.
    - simpl in Hpre. apply andb_true_iff in Hpre as [Hc Hpre].
      apply negb_true_iff in Hc. simpl append. cbn [search].
      rewrite (count_run_none c _ Hc). now apply IH. }
  rewrite Hs. unfold group1. cbn [m_pos fst]. now rewrite span_append.
Qed.

Lemma substring_trans a b c :
  is_substring a b -> is_substring b c -> is_substring a c.
Proof.
  intros [p1 [q1 ->]] [p2 [q2 ->]]. exists (p2 ++ p1), (q1 ++ q2).
  now rewrite !append_assoc.
Qed.

End Groups.

(** ** Beyond the claims: the fields one by one *)

Section Fields.
Import Py Common Spec.

(** X1: in both scripts the six plain text fields (title, price,
    availability, description, ships_from, sold_by) never start or end
    with a whitespace character; in the BeautifulSoup script such a field
    is null exactly when its selector matches no element, so an element
    without text gives the empty string, not null. *)
Theorem text_fields_trimmed soup page f g k v
  (Hfield : In (f, g, k)
     [ (Soup.extract_title, Playwright.extract_title, title);
       (Soup.extract_price, Playwright.extract_price, price);
       (Soup.extract_availability, Playwright.extract_availability,
        availability);
       (Soup.extract_description, Playwright.extract_description,
        description);
       (Soup.extract_ships_from, Playwright.extract_ships_from, ships_from);
       (Soup.extract_sold_by, Playwright.extract_sold_by, sold_by) ]) :
  (f soup = None <-> Soup.select soup (SELECTORS k) = [])
  /\ (f soup = Some v -> trimmed v)
  /\ (g page = Playwright.Ok (Some v) -> trimmed v).
Proof.
  assert (H : f = (fun soup => Soup.text_of soup k)
              /\ g = (fun page => Playwright.text_of page k)).
  { simpl in Hfield.
    repeat (destruct Hfield as [[= <- <- <-]|Hfield]; [split; reflexivity|]).
    contradiction. }
  destruct H as [-> ->]. split; [apply soup_text_none|].
  split; [apply soup_text_trimmed | apply page_text_trimmed].
Qed.

Lemma text_fields_trimmed_witness :
  trimmed "$99.99" /\ trimmed "$99.99".
Proof.
  destruct (text_fields_trimmed Samples.priced_soup Samples.shaky_page
              Soup.extract_price Playwright.extract_price price "$99.99"
              (or_intror (or_introl eq_refl))) as [_ [H1 H2]].
  split; [apply H1 | apply H2]; reflexivity.
Defined.

Lemma add_feature_keeps (Q : string -> Prop) fs t :
  Forall Q fs -> (long_enough t = true -> Q t) -> Forall Q (add_feature fs t).
Proof.
  intros Hfs Ht. rewrite add_feature_long.
  destruct (long_enough t); [|exact Hfs].
  apply Forall_app. split; [exact Hfs | repeat constructor; auto].
Qed.

(** X2: whatever the document holds and whatever the browser does, every
    feature returned is longer than five characters and neither starts
    nor ends with whitespace. *)
Theorem features_always_long_and_trimmed :
  (forall soup,
     Forall (fun f => 5 < String.length f /\ trimmed f)
            (Soup.extract_features soup))
  /\ (forall page, exists l,
        Playwright.extract_features page = Playwright.Ok l
        /\ Forall (fun f => 5 < String.length f /\ trimmed f) l).
Proof.
  split.
  - intros soup. rewrite soup_features. apply Forall_forall.
    intros f Hf. apply filter_In in Hf as [Hin Hlong].
    apply in_map_iff in Hin as [el [<- _]].
    split; [now apply Nat.ltb_lt | apply get_text_trimmed].
  - intros page. unfold Playwright.extract_features, Playwright.collect.
    eexists. split; [reflexivity|].
    unfold Playwright.fbind at 1. unfold Playwright.call at 1.
    destruct (Playwright.query_selector_all page (SELECTORS features))
      as [els|e]; [|constructor].
    apply (for_each_keeps
             (Forall (fun f => 5 < String.length f /\ trimmed f)));
      [|constructor].
    intros el l Hl. unfold Playwright.fbind, Playwright.call, Playwright.update.
    destruct (Playwright.inner_text el) as [t|e]; simpl; [|exact Hl].
    apply add_feature_keeps; [exact Hl|].
    intros Hlong. split; [now apply Nat.ltb_lt | apply strip_trimmed].
Qed.

(** X3: a rating that is not null is numeric text, one or more digits,
    at most one dot, then digits, and it stands in the text the script
    read from the first matched element right before optional whitespace
    and the words "out of".  Both scripts. *)
Theorem avg_rating_is_decimal_text soup page v :
  (Soup.extract_avg_rating soup = Some v ->
   decimal_text v
   /\ exists el, Soup.select_one soup (SELECTORS avg_rating) = Some el
                 /\ before_out_of v (Soup.get_text el))
  /\ (Playwright.extract_avg_rating page = Playwright.Ok (Some v) ->
      decimal_text v
      /\ exists h others t,
           Playwright.query_selector_all page (SELECTORS avg_rating)
             = Playwright.Ok (h :: others)
           /\ Playwright.inner_text h = Playwright.Ok t
           /\ before_out_of v (strip t)).
Proof.
  split.
  - unfold Soup.extract_avg_rating.
    destruct (Soup.select_one soup (SELECTORS avg_rating)) as [el|];
      [|discriminate].
    intros H. apply rating_shape in H as [Hd Hb]. eauto.
  - unfold Playwright.extract_avg_rating, Playwright.query_selector.
    destruct (Playwright.query_selector_all page (SELECTORS avg_rating))
      as [[|h r]|e] eqn:Hq; simpl; try discriminate.
    destruct (Playwright.inner_text h) as [t|e] eqn:Ht; simpl; [|discriminate].
    intros [= H]. apply rating_shape in H as [Hd Hb].
    split; [exact Hd|]. exists h, r, t. repeat split; assumption.
Qed.

Lemma avg_rating_is_decimal_text_witness :
  decimal_text "4.5"
  /\ exists h others t,
       Playwright.query_selector_all Samples.rated_page (SELECTORS avg_rating)
         = Playwright.Ok (h :: others)
       /\ Playwright.inner_text h = Playwright.Ok t
       /\ before_out_of "4.5" (strip t).
Proof.
  destruct (avg_rating_is_decimal_text Samples.rated_soup Samples.rated_page
              "4.5") as [H1 H2].
  split; [exact (proj1 (H1 eq_refl)) | exact (proj2 (H2 eq_refl))].
Defined.

(** X4: the review count is read off the first run of digits and commas
    in the element's text, whatever follows: the commas of that run are
    removed and later numbers are ignored.  A review count that is not
    null holds digits only. *)
Theorem review_count_first_run soup el page h others t pre w rest
  (Hsoup : Soup.select_one soup (SELECTORS review_count) = Some el)
  (Hpage : Playwright.query_selector_all page (SELECTORS review_count)
           = Playwright.Ok (h :: others))
  (Htext : Playwright.inner_text h = Playwright.Ok t)
  (Hpre : all (fun c => negb (isdigit c || Ascii.eqb c ",")) pre = true)
  (Hrun : w <> "" /\ all (fun c => isdigit c || Ascii.eqb c ",") w = true)
  (Hstop : stops (fun c => isdigit c || Ascii.eqb c ",") rest) :
  (Soup.get_text el = pre ++ w ++ rest ->
   Soup.extract_review_count soup = Some (replace "," "" w))
  /\ (strip t = pre ++ w ++ rest ->
      Playwright.extract_review_count page
      = Playwright.Ok (Some (replace "," "" w)))
  /\ (forall v, Soup.extract_review_count soup = Some v ->
                all isdigit v = true)
  /\ (forall v, Playwright.extract_review_count page = Playwright.Ok (Some v) ->
                all isdigit v = true).
Proof.
  destruct Hrun as [Hn Hw].
  rewrite (soup_count _ _ Hsoup), (page_count _ _ _ _ Hpage Htext).
  repeat split.
  - intros ->. now apply count_first_run.
  - intros ->. f_equal. now apply count_first_run.
  - intros v. apply count_digits.
  - intros v [= H]. now apply count_digits in H.
Qed.

Lemma review_count_first_run_witness :
  Soup.extract_review_count Samples.mixed_soup = Some "4"
  /\ Playwright.extract_review_count Samples.mixed_page
     = Playwright.Ok (Some "4").
Proof.
  assert (Hpre : all (fun c => negb (isdigit c || Ascii.eqb c ",")) "" = true)
    by reflexivity.
  assert (Hrun : "4" <> ""
                 /\ all (fun c => isdigit c || Ascii.eqb c ",") "4" = true)
    by (split; [discriminate | vm_compute; reflexivity]).
  assert (Hstop : stops (fun c => isdigit c || Ascii.eqb c ",")
                        ".5 stars, 1,234 ratings")
    by (vm_compute; reflexivity).
  destruct (review_count_first_run Samples.mixed_soup
              (Samples.tag "4.5 stars, 1,234 ratings" [])
              Samples.mixed_page
              (Samples.handle "4.5 stars, 1,234 ratings" []) []
              "4.5 stars, 1,234 ratings" "" "4" ".5 stars, 1,234 ratings"
              eq_refl eq_refl eq_refl Hpre Hrun Hstop)
    as [H1 [H2 _]].
  split; [apply H1 | apply H2]; vm_compute; reflexivity.
Defined.

Lemma texts_calm els ts :
  Forall2 (fun el t => Playwright.inner_text el = Playwright.Ok t) els ts ->
  Playwright.texts els = Playwright.Ok (map strip ts).
Proof.
  induction 1 as [|el t els ts Ht _ IH]; simpl; [reflexivity|].
  now rewrite Ht, IH.
Qed.

Lemma texts_raise els el e :
  In el els -> Playwright.inner_text el = Playwright.Raise e ->
  exists e', Playwright.texts els = Playwright.Raise e'.
Proof.
  intros Hin He. induction els as [|x els IH]; [contradiction|].
  simpl. destruct (Playwright.inner_text x) as [t|e'] eqn:Ex; simpl; [|eauto].
  destruct Hin as [->|Hin]; [congruence|].
  destruct (IH Hin) as [e'' ->]. simpl. eauto.
Qed.

(** X5: the category is null exactly when no breadcrumb matches; in the
    Playwright script a single breadcrumb whose text cannot be read makes
    the whole category null, and when all can be read the category is
    their stripped texts joined by " > ". *)
Theorem category_all_or_nothing :
  (forall soup,
     Soup.extract_category soup = None <->
     Soup.select soup (SELECTORS category) = [])
  /\ (forall soup, Soup.select soup (SELECTORS category) <> [] ->
        Soup.extract_category soup
        = Some (join " > "
                  (map Soup.get_text (Soup.select soup (SELECTORS category)))))
  /\ (forall page els el e,
        Playwright.query_selector_all page (SELECTORS category)
          = Playwright.Ok els ->
        In el els ->
        Playwright.inner_text el = Playwright.Raise e ->
        Playwright.extract_category page = Playwright.Ok None)
  /\ (forall page els ts,
        Playwright.query_selector_all page (SELECTORS category)
          = Playwright.Ok els ->
        els <> [] ->
        Forall2 (fun el t => Playwright.inner_text el = Playwright.Ok t)
                els ts ->
        Playwright.extract_category page
        = Playwright.Ok (Some (join " > " (map strip ts)))).
Proof.
  repeat apply conj.
  - intros soup. unfold Soup.extract_category.
    destruct (Soup.select soup (SELECTORS category)); split; intros H;
      auto; discriminate.
  - intros soup. unfold Soup.extract_category.
    destruct (Soup.select soup (SELECTORS category)); [contradiction|reflexivity].
  - intros page els el e Hq Hin He. unfold Playwright.extract_category.
    rewrite Hq. simpl. destruct els as [|x els']; [contradiction|].
    destruct (texts_raise _ _ _ Hin He) as [e' ->]. reflexivity.
  - intros page els ts Hq Hne Hts. unfold Playwright.extract_category.
    rewrite Hq. simpl. destruct els as [|x els']; [contradiction|].
    now rewrite (texts_calm _ _ Hts).
Qed.

Lemma category_all_or_nothing_witness :
  Playwright.extract_category Samples.crumbs_page
  = Playwright.Ok (Some "Electronics > Computers > Mice")
  /\ Playwright.extract_category Samples.torn_crumbs_page = Playwright.Ok None
  /\ Soup.extract_category Samples.crumbs_soup
     = Some "Electronics > Computers > Mice".
Proof.
  destruct category_all_or_nothing as [_ [Hsoup [Hraise Hcalm]]].
  split; [|split].
  - apply (Hcalm Samples.crumbs_page
             (map (fun t => Samples.handle t []) Samples.crumbs)
             Samples.crumbs eq_refl);
      [discriminate | repeat constructor].
  - apply (Hraise Samples.torn_crumbs_page _ Samples.broken
             (Playwright.Error "detached") eq_refl);
      [simpl; tauto | reflexivity].
  - apply (Hsoup Samples.crumbs_soup). discriminate.
Defined.

(** X6: two keywords decide the out_of_stock flag: it is true exactly
    when the lowercased availability contains "out of stock" or
    "unavailable"; the third keyword of the list, "currently
    unavailable", never changes the answer. *)
Theorem out_of_stock_two_keywords :
  (forall soup,
     Soup.extract_out_of_stock soup = true <->
     exists a, Soup.extract_availability soup = Some a
               /\ (is_substring "out of stock" (lower a)
                   \/ is_substring "unavailable" (lower a)))
  /\ (forall page flag,
        Playwright.extract_out_of_stock page = Playwright.Ok flag ->
        (flag = true <->
         exists a, Playwright.extract_availability page
                   = Playwright.Ok (Some a)
                   /\ (is_substring "out of stock" (lower a)
                       \/ is_substring "unavailable" (lower a)))).
Proof.
  assert (Hkey : forall a,
    out_of_stock_of a = true <->
    exists s, a = Some s /\ (is_substring "out of stock" (lower s)
                             \/ is_substring "unavailable" (lower s))).
  { intros a. rewrite out_of_stock_of_iff. split.
    - intros [s [-> [k [Hk Hs]]]]. exists s. split; [reflexivity|].
      destruct Hk as [<-|[<-|[<-|[]]]]; auto.
      right. apply substring_trans with (b := "currently unavailable");
        [exists "currently ", ""; reflexivity | exact Hs].
    - intros [s [-> [H|H]]]; exists s; (split; [reflexivity|]).
      + exists "out of stock". simpl. auto.
      + exists "unavailable". simpl. auto. }
  split.
  - intros soup. unfold Soup.extract_out_of_stock. apply Hkey.
  - intros page flag. unfold Playwright.extract_out_of_stock,
      Playwright.extract_availability.
    destruct (page_text_ok page availability) as [v ->]. simpl.
    intros [= <-]. rewrite Hkey. split.
    + intros [s [-> H]]. eauto.
    + intros [s [[= ->] H]]. eauto.
Qed.

End Fields.

(** ** Beyond the claims: the run as a whole *)

Section Runs.
Import Py Common Spec.

Lemma fetch_accepted requests_get http_error_text lxml url response w :
  requests_get url = inr response ->
  accepted response = true ->
  Soup.fetch_page requests_get http_error_text lxml url w
  = (Some (lxml (Soup.content response)), w).
Proof.
  intros Hget Hacc. unfold Soup.fetch_page, Soup.fetch_body,
    Soup.raise_for_status. rewrite Hget.
  unfold accepted in Hacc. apply negb_true_iff in Hacc. now rewrite Hacc.
Qed.

Lemma fetch_rejected requests_get http_error_text lxml url w :
  (forall response, requests_get url = inr response ->
                    accepted response = false) ->
  exists message,
    Soup.fetch_page requests_get http_error_text lxml url w
    = (None, {| stdout := stdout w;
                stderr := (stderr w ++ [message])%list |}).
Proof.
  intros Hrej. unfold Soup.fetch_page, Soup.fetch_body, Soup.raise_for_status.
  destruct (requests_get url) as [e|response].
  - destruct e; eexists; reflexivity.
  - specialize (Hrej response eq_refl). unfold accepted in Hrej.
    apply negb_false_iff in Hrej. rewrite Hrej. eexists. reflexivity.
Qed.

(** X7: fetch_page never writes to standard output; it returns a parsed
    document, leaving the error stream as it was, exactly when a response
    arrived whose status is outside 400..599; in every other case,
    whatever exception the request raised, it returns nothing and adds
    exactly one line to the error stream. *)
Theorem fetch_page_outcomes requests_get http_error_text lxml url w :
  (exists response,
     requests_get url = inr response
     /\ accepted response = true
     /\ Soup.fetch_page requests_get http_error_text lxml url w
        = (Some (lxml (Soup.content response)), w))
  \/ ((forall response, requests_get url = inr response ->
                        accepted response = false)
      /\ exists message,
           Soup.fetch_page requests_get http_error_text lxml url w
           = (None, {| stdout := stdout w;
                       stderr := (stderr w ++ [message])%list |})).
Proof.
  destruct (requests_get url) as [e|response] eqn:Hget.
  - right. split; [discriminate|]. apply fetch_rejected.
    rewrite Hget. discriminate.
  - destruct (accepted response) eqn:Hacc.
    + left. exists response. repeat split; auto.
      now apply fetch_accepted.
    + right. split; [intros r [= <-]; exact Hacc|].
      apply fetch_rejected. rewrite Hget. now intros r [= <-].
Qed.

(** X8: the requests script ends with status 0 or 1.  It ends with 0
    exactly when a response arrived whose status is outside 400..599;
    then it prints the banner and one record and nothing on the error
    stream.  Otherwise it prints the banner only, two lines on the error
    stream, the last one "failed to scrape product data". *)
Theorem main_exit_status requests_get http_error_text lxml :
  let r := Soup.main requests_get http_error_text lxml in
  (exit_status r = 0 <->
   exists response,
     requests_get TARGET_URL = inr response /\ accepted response = true)
  /\ (exit_status r = 0 ->
      exists response,
        requests_get TARGET_URL = inr response
        /\ output r
           = {| stdout :=
                  [banner;
                   Json (Soup.product_data (lxml (Soup.content response))
                                           TARGET_URL)];
                stderr := [] |})
  /\ (exit_status r <> 0 ->
      exit_status r = 1
      /\ stdout (output r) = [banner]
      /\ exists message,
           stderr (output r) = [message; "failed to scrape product data"]).
Proof.
  cbv zeta. unfold Soup.main, Soup.main_io, Soup.scrape_amazon_product, bind.
  cbn [print fst snd].
  assert (Hcases :
    (exists response,
       requests_get TARGET_URL = inr response
       /\ accepted response = true
       /\ Soup.fetch_page requests_get http_error_text lxml TARGET_URL
            {| stdout := [] ++ [banner]; stderr := [] |}
          = (Some (lxml (Soup.content response)),
             {| stdout := [] ++ [banner]; stderr := [] |}))
    \/ ((forall response, requests_get TARGET_URL = inr response ->
                          accepted response = false)
        /\ exists message,
             Soup.fetch_page requests_get http_error_text lxml TARGET_URL
               {| stdout := [] ++ [banner]; stderr := [] |}
             = (None, {| stdout := [] ++ [banner];
                         stderr := ([] ++ [message])%list |}))).
  { destruct (requests_get TARGET_URL) as [e|response] eqn:Hget.
    - right. split; [discriminate|].
      apply (fetch_rejected requests_get http_error_text lxml TARGET_URL
               {| stdout := [] ++ [banner]; stderr := [] |}).
      rewrite Hget. discriminate.
    - destruct (accepted response) eqn:Hacc.
      + left. exists response. repeat split; auto.
        now apply fetch_accepted.
      + right. split; [intros r [= <-]; exact Hacc|].
        apply (fetch_rejected requests_get http_error_text lxml TARGET_URL
                 {| stdout := [] ++ [banner]; stderr := [] |}).
        rewrite Hget. now intros r [= <-]. }
  destruct Hcases
    as [[response [Hget [Hacc Hfetch]]] | [Hrej [message Hfetch]]].
  - unfold banner in Hfetch. cbn [stdout stderr empty_std]. rewrite Hfetch.
    cbn. split; [|split].
    + split; [eauto | reflexivity].
    + intros _. exists response. split; [exact Hget | reflexivity].
    + intros H. contradiction.
  - unfold banner in Hfetch. cbn [stdout stderr empty_std]. rewrite Hfetch.
    cbn. split; [|split].
    + split; [discriminate|].
      intros [response [Hget Hacc]]. rewrite (Hrej _ Hget) in Hacc.
      discriminate.
    + discriminate.
    + intros _. repeat split. eauto.
Qed.

(** X9: what the Playwright script prints and how it ends is decided by
    the browser calls alone, never by the extraction.  When launch, goto,
    the wait for the title, the settle delay and close all return, it
    prints the banner, the navigation line and the record and ends with
    status 0.  When one of them raises, it ends with status 1, prints no
    record, and the error stream holds the line for the first exception
    raised, "error: page load timed out" for a timeout, followed by
    "failed to scrape product data". *)
Theorem playwright_main_by_session b :
  Playwright.main b
  = match session_steps b TARGET_URL with
    | Playwright.Ok _ =>
        {| output :=
             {| stdout := [banner; navigating TARGET_URL;
                           Json (settled (Playwright.page b) TARGET_URL)];
                stderr := [] |};
           exit_status := 0 |}
    | Playwright.Raise e =>
        {| output :=
             {| stdout := printed_before b;
                stderr := [complaint e; "failed to scrape product data"] |};
           exit_status := 1 |}
    end.
Proof.
  unfold Playwright.main, Playwright.main_io, Playwright.scrape_amazon_product,
    Playwright.scrape_body, session_steps, printed_before, bind.
  cbn [print fst snd]. rewrite page_data.
  destruct (Playwright.launch b) as [[]|e]; [|destruct e; reflexivity].
  cbn [Playwright.rbind print fst snd ret].
  destruct (Playwright.goto b TARGET_URL) as [[]|e]; [|destruct e; reflexivity].
  destruct (Playwright.wait_for_selector b "#productTitle") as [[]|e];
    [|destruct e; reflexivity].
  destruct (Playwright.wait_for_timeout b) as [[]|e];
    [|destruct e; reflexivity].
  destruct (Playwright.close b) as [[]|e]; [|destruct e; reflexivity].
  reflexivity.
Qed.

(** X10: in the Playwright script an exception raised by browser.close()
    after every field was extracted discards the record: nothing but the
    banner and the navigation line reaches standard output and the run
    ends with status 1. *)
Theorem close_failure_discards_record b e
  (Hlaunch : Playwright.launch b = Playwright.Ok tt)
  (Hgoto : Playwright.goto b TARGET_URL = Playwright.Ok tt)
  (Hwait : Playwright.wait_for_selector b "#productTitle" = Playwright.Ok tt)
  (Hsettle : Playwright.wait_for_timeout b = Playwright.Ok tt)
  (Hclose : Playwright.close b = Playwright.Raise e) :
  (exists d, Playwright.product_data (Playwright.page b) TARGET_URL
             = Playwright.Ok d)
  /\ exit_status (Playwright.main b) = 1
  /\ stdout (output (Playwright.main b)) = [banner; navigating TARGET_URL]
  /\ ~ printed_record (output (Playwright.main b)).
Proof.
  split; [eexists; apply page_data|].
  unfold Playwright.main, Playwright.main_io, Playwright.scrape_amazon_product,
    Playwright.scrape_body, bind.
  cbn [print fst snd].
  rewrite Hlaunch, Hgoto, Hwait, Hsettle, Hclose, page_data.
  destruct e; cbn; repeat split; intros [d [H|[H|[]]]]; discriminate H.
Qed.

Lemma close_failure_discards_record_witness :
  exit_status (Playwright.main Samples.unclosing) = 1
  /\ stdout (output (Playwright.main Samples.unclosing))
     = [banner; navigating TARGET_URL].
Proof.
  destruct (close_failure_discards_record Samples.unclosing
              (Playwright.Error "browser has been closed")
              eq_refl eq_refl eq_refl eq_refl eq_refl) as [_ [H1 [H2 _]]].
  split; [exact H1 | exact H2].
Defined.

End Runs.

(** ** Beyond the claims: the images and the record *)

Section Gallery.
Import Py Common Spec.

(** the main image, when the browser answers the attribute calls made *)
Lemma page_main_candidate mains candidate :
  (forall m, hd_error mains = Some m ->
     Playwright.attribute_or m "data-old-hires" "src"
     = Playwright.Ok candidate) ->
  match hd_error mains with
  | Some main_img =>
      Playwright.fbind
        (Playwright.call
           (Playwright.attribute_or main_img "data-old-hires" "src"))
        (fun img_url =>
           Playwright.update (fun images => add_main images img_url))
  | None => Playwright.fret tt
  end []
  = (Playwright.Ok tt,
     match mains with [] => [] | _ => usable candidate end).
Proof.
  intros Hattr. destruct mains as [|m mains']; [reflexivity|].
  change (hd_error (m :: mains')) with (Some m). cbv iota.
  unfold Playwright.fbind, Playwright.call, Playwright.update.
  rewrite (Hattr m eq_refl). now rewrite add_main_usable.
Qed.

Lemma page_images_candidate page mains candidate ths srcs :
  Playwright.query_selector_all page (SELECTORS images) = Playwright.Ok mains ->
  (forall m, hd_error mains = Some m ->
     Playwright.attribute_or m "data-old-hires" "src"
     = Playwright.Ok candidate) ->
  Playwright.query_selector_all page THUMBNAILS = Playwright.Ok ths ->
  Forall2 (fun th a => Playwright.get_attribute th "src" = Playwright.Ok a)
          ths srcs ->
  Playwright.extract_images page
  = Playwright.Ok
      (first_occurrences
         (match mains with [] => [] | _ => usable candidate end
          ++ map large_url (flat_map usable srcs))%list).
Proof.
  intros Hq Hattr Hq2 Hsrcs.
  unfold Playwright.extract_images, Playwright.collect, Playwright.query_selector.
  rewrite Hq. f_equal.
  unfold Playwright.fbind at 1. unfold Playwright.call at 1. simpl Playwright.rbind.
  unfold Playwright.fbind at 1. rewrite (page_main_candidate mains candidate Hattr).
  unfold Playwright.fbind at 1. unfold Playwright.call at 1. rewrite Hq2.
  rewrite (for_each_calm ths srcs
             (fun th => Playwright.get_attribute th "src")
             (fun l a => add_thumb l a) Hsrcs).
  simpl snd.
  rewrite (thumbs_fold (fun a : option string => a)).
  apply add_new_fold.
  destruct mains; [constructor | apply usable_NoDup].
Qed.

Lemma usable_blocked h :
  startswith h "http" = false -> usable (Some h) = [].
Proof. intros H. unfold usable. now rewrite H, andb_false_r. Qed.

(** X11: a main image whose high-resolution attribute has a value that
    does not start with http contributes nothing, whatever its source
    attribute holds: the source attribute is consulted only when the
    high-resolution one is missing or empty.  The images are then the
    thumbnails alone. *)
Theorem hires_blocks_source soup main_img page m others thumbs srcs h
  (Hsoup : Soup.select_one soup (SELECTORS images) = Some main_img)
  (Hhires : Soup.get main_img "data-old-hires" = Some h)
  (Hpage : Playwright.query_selector_all page (SELECTORS images)
           = Playwright.Ok (m :: others))
  (Hattr : Playwright.get_attribute m "data-old-hires"
           = Playwright.Ok (Some h))
  (Hthumbs : Playwright.query_selector_all page THUMBNAILS
             = Playwright.Ok thumbs)
  (Hsrcs : Forall2 (fun th a => Playwright.get_attribute th "src"
                                = Playwright.Ok a) thumbs srcs)
  (Hvalue : h <> "")
  (Hscheme : startswith h "http" = false) :
  Soup.extract_images soup
  = first_occurrences
      (map large_url
         (flat_map (fun thumb => usable (Soup.get thumb "src"))
                   (Soup.select soup THUMBNAILS)))
  /\ Playwright.extract_images page
     = Playwright.Ok (first_occurrences (map large_url (flat_map usable srcs))).
Proof.
  split.
  - rewrite soup_images, Hsoup, Hhires.
    destruct h as [|c h]; [contradiction|]. cbn [preferred].
    now rewrite (usable_blocked _ Hscheme).
  - rewrite (page_images_candidate page (m :: others) (Some h) thumbs srcs
               Hpage); auto.
    + now rewrite (usable_blocked _ Hscheme).
    + intros m' [= <-]. unfold Playwright.attribute_or. rewrite Hattr.
      destruct h; [contradiction | reflexivity].
Qed.

Lemma hires_blocks_source_witness :
  Soup.extract_images Samples.inline_soup
  = [ "https://m.media-amazon.com/images/I/61abc._AC_SL1500_.jpg";
      "https://m.media-amazon.com/images/I/41xyz._AC_US40_.jpg";
      "https://m.media-amazon.com/images/I/71def._AC_SL1500_.jpg" ].
Proof.
  rewrite (proj1 (hires_blocks_source Samples.inline_soup
             (Samples.tag "" Samples.inline_attrs)
             (Samples.page_of
                [(SELECTORS images,
                  Playwright.Ok [Samples.handle "" Samples.inline_attrs])])
             (Samples.handle "" Samples.inline_attrs) [] [] []
             "data:image/gif;base64,R0lGOD"
             eq_refl eq_refl eq_refl eq_refl eq_refl
             (Forall2_nil _) ltac:(discriminate) eq_refl)).
  vm_compute. reflexivity.
Defined.

(** X12: when the main image has a usable URL, its non-empty
    high-resolution attribute or else its source attribute, starting
    with http, that URL is the first of the images, as it is, and it
    does not come again: a thumbnail that rewrites to it is left out. *)
Theorem main_image_first soup main_img u
  (Hsoup : Soup.select_one soup (SELECTORS images) = Some main_img)
  (Hurl : (Soup.get main_img "data-old-hires" = Some u /\ u <> "")
          \/ ((Soup.get main_img "data-old-hires" = None
               \/ Soup.get main_img "data-old-hires" = Some "")
              /\ Soup.get main_img "src" = Some u))
  (Hscheme : startswith u "http" = true) :
  exists others,
    Soup.extract_images soup = u :: others
    /\ ~ In u others
    /\ others
       = filter (fun y => negb (String.eqb y u))
           (first_occurrences
              (map large_url
                 (flat_map (fun thumb => usable (Soup.get thumb "src"))
                           (Soup.select soup THUMBNAILS)))).
Proof.
  assert (Hp : preferred (Soup.get main_img "data-old-hires")
                         (Soup.get main_img "src") = Some u).
  { destruct Hurl as [[-> Hne] | [[->| ->] ->]]; try reflexivity.
    destruct u; [contradiction | reflexivity]. }
  rewrite soup_images, Hsoup, Hp, (usable_startswith _ Hscheme).
  eexists. split; [reflexivity|]. split; [|reflexivity].
  rewrite filter_In, String.eqb_refl. intros [_ H]. discriminate.
Qed.

Lemma main_image_first_witness :
  exists others,
    Soup.extract_images Samples.gallery_soup
    = "https://m.media-amazon.com/images/I/61abc._AC_SL1500_.jpg" :: others.
Proof.
  assert (Hsoup : Soup.select_one Samples.gallery_soup (SELECTORS images)
                  = Some (Samples.tag "" Samples.main_attrs))
    by (vm_compute; reflexivity).
  assert (Hhires : Soup.get (Samples.tag "" Samples.main_attrs) "data-old-hires"
                   = Some "https://m.media-amazon.com/images/I/61abc._AC_SL1500_.jpg")
    by (vm_compute; reflexivity).
  assert (Hscheme : startswith
                      "https://m.media-amazon.com/images/I/61abc._AC_SL1500_.jpg"
                      "http" = true)
    by (vm_compute; reflexivity).
  assert (Hvalue : "https://m.media-amazon.com/images/I/61abc._AC_SL1500_.jpg"
                   <> "") by discriminate.
  pose proof (main_image_first Samples.gallery_soup
                (Samples.tag "" Samples.main_attrs)
                "https://m.media-amazon.com/images/I/61abc._AC_SL1500_.jpg"
                Hsoup) as Hfirst.
  specialize (Hfirst (or_introl (conj Hhires Hvalue))).
  specialize (Hfirst Hscheme).
  destruct Hfirst as [others [H _]].
  exists others. exact H.
Defined.

Lemma out_of_stock_needs_text a :
  out_of_stock_of a = true -> exists s, a = Some s /\ s <> "".
Proof.
  unfold out_of_stock_of. destruct a as [[|c s]|]; try discriminate.
  intros _. eexists. split; [reflexivity | discriminate].
Qed.

(** X13: every record either script builds has the thirteen keys in
    their order, url as it was asked for, a boolean under out_of_stock
    and lists under features and images, never null; and out_of_stock is
    true only in a record whose availability is a non-empty string. *)
Theorem record_shape :
  (forall soup url,
     let d := Soup.product_data soup url in
     keys d = record_keys
     /\ lookup "url" d = Some (VStr url)
     /\ (exists b, lookup "out_of_stock" d = Some (VBool b))
     /\ (exists l, lookup "features" d = Some (VList l))
     /\ (exists l, lookup "images" d = Some (VList l))
     /\ (lookup "out_of_stock" d = Some (VBool true) ->
         exists a, a <> "" /\ lookup "availability" d = Some (VStr a)))
  /\ (forall page url d,
        Playwright.product_data page url = Playwright.Ok d ->
        keys d = record_keys
        /\ lookup "url" d = Some (VStr url)
        /\ (exists b, lookup "out_of_stock" d = Some (VBool b))
        /\ (exists l, lookup "features" d = Some (VList l))
        /\ (exists l, lookup "images" d = Some (VList l))
        /\ (lookup "out_of_stock" d = Some (VBool true) ->
            exists a, a <> "" /\ lookup "availability" d = Some (VStr a))).
Proof.
  split.
  - intros soup url. cbv zeta. unfold Soup.product_data.
    cbn [keys map fst lookup String.eqb Ascii.eqb Bool.eqb].
    repeat split; eauto.
    intros [= H]. unfold Soup.extract_out_of_stock in H.
    apply out_of_stock_needs_text in H as [s [-> Hs]]. eauto.
  - intros page url d Hd. rewrite page_data in Hd. injection Hd as <-.
    unfold settled.
    cbn [keys map fst lookup String.eqb Ascii.eqb Bool.eqb].
    repeat split; eauto.
    unfold Playwright.extract_out_of_stock.
    destruct (Playwright.extract_availability page) as [a|e]; simpl;
      [|discriminate].
    intros [= H]. apply out_of_stock_needs_text in H as [s [-> Hs]]. eauto.
Qed.

End Gallery.

(** ** Beyond the claims: the two scripts side by side *)

Section Agreement.
Import Py Common Spec.

Lemma same_texts tags hs :
  Forall2 same_element tags hs ->
  exists ts,
    Forall2 (fun h t => Playwright.inner_text h = Playwright.Ok t) hs ts
    /\ map strip ts = map Soup.get_text tags.
Proof.
  induction 1 as [|tag h tags hs [[t [Ht Hs]] _] _ [ts [IH1 IH2]]].
  - exists []. split; [constructor | reflexivity].
  - exists (t :: ts). split; [now constructor | simpl; now rewrite Hs, IH2].
Qed.

Lemma same_sources tags hs :
  Forall2 same_element tags hs ->
  Forall2 (fun h a => Playwright.get_attribute h "src" = Playwright.Ok a)
          hs (map (fun tag => Soup.get tag "src") tags).
Proof.
  induction 1 as [|tag h tags hs [_ Hattr] _ IH]; simpl; constructor; auto.
Qed.

Lemma flat_usable_map {A} (src : A -> option string) xs :
  flat_map usable (map src xs) = flat_map (fun x => usable (src x)) xs.
Proof. induction xs as [|x xs IH]; simpl; [reflexivity | now rewrite IH]. Qed.

Section Mirror.
Variables (soup : Soup.BeautifulSoup) (page : Playwright.Page).
Hypothesis Hmirror : mirrors soup page.

(** a field that reads the text of the first match *)
Lemma mirror_first (k : key) (read : string -> option string) :
  Playwright.try_except
    (Playwright.rbind (Playwright.query_selector page (SELECTORS k))
       (fun element =>
          match element with
          | Some element =>
              Playwright.rbind (Playwright.inner_text element)
                (fun t => Playwright.Ok (read (strip t)))
          | None => Playwright.Ok None
          end))
    (fun _ => Playwright.Ok None)
  = Playwright.Ok
      match Soup.select_one soup (SELECTORS k) with
      | Some element => read (Soup.get_text element)
      | None => None
      end.
Proof.
  destruct (Hmirror (SELECTORS k)) as [hs [Hq Hsame]].
  unfold Playwright.query_selector, Soup.select_one. rewrite Hq.
  destruct Hsame as [|tag h tags hs' [[t [Ht Hs]] _] _]; simpl; [reflexivity|].
  rewrite Ht. simpl. now rewrite Hs.
Qed.

Lemma mirror_text k :
  Playwright.text_of page k = Playwright.Ok (Soup.text_of soup k).
Proof. apply (mirror_first k Some). Qed.

Lemma mirror_rating :
  Playwright.extract_avg_rating page
  = Playwright.Ok (Soup.extract_avg_rating soup).
Proof. apply (mirror_first avg_rating rating_of_text). Qed.

Lemma mirror_count :
  Playwright.extract_review_count page
  = Playwright.Ok (Soup.extract_review_count soup).
Proof. apply (mirror_first review_count count_of_text). Qed.

Lemma mirror_features :
  Playwright.extract_features page
  = Playwright.Ok (Soup.extract_features soup).
Proof.
  destruct (Hmirror (SELECTORS features)) as [hs [Hq Hsame]].
  destruct (same_texts _ _ Hsame) as [ts [Hts Heq]].
  now rewrite (page_features page hs ts Hq Hts), soup_features, Heq.
Qed.

Lemma mirror_category :
  Playwright.extract_category page
  = Playwright.Ok (Soup.extract_category soup).
Proof.
  destruct (Hmirror (SELECTORS category)) as [hs [Hq Hsame]].
  unfold Playwright.extract_category, Soup.extract_category. rewrite Hq.
  remember (Soup.select soup (SELECTORS category)) as tags eqn:Etags.
  clear Etags Hq. destruct Hsame as [|tag h tags hs' Hs Hrest]; [reflexivity|].
  destruct (same_texts _ _ (Forall2_cons _ _ Hs Hrest)) as [ts [Hts Heq]].
  cbn [Playwright.rbind]. rewrite (texts_calm _ _ Hts), Heq. reflexivity.
Qed.

Lemma mirror_images :
  Playwright.extract_images page
  = Playwright.Ok (Soup.extract_images soup).
Proof.
  destruct (Hmirror (SELECTORS images)) as [mains [Hq Hmain]].
  destruct (Hmirror THUMBNAILS) as [ths [Hq2 Hthumbs]].
  rewrite soup_images. unfold Soup.select_one.
  destruct Hmain as [|tag m tags mains' [_ Hattr] _].
  - rewrite (page_images page [] None None ths _ Hq
               ltac:(discriminate) Hq2 (same_sources _ _ Hthumbs)).
    now rewrite flat_usable_map.
  - rewrite (page_images page (m :: mains')
               (Soup.get tag "data-old-hires") (Soup.get tag "src") ths _ Hq
               ltac:(intros m' [= <-]; split; apply Hattr)
               Hq2 (same_sources _ _ Hthumbs)).
    now rewrite flat_usable_map.
Qed.

End Mirror.

(** X14: the two scripts are interchangeable on the same content.  When
    every query of the live page returns elements that show the same
    stripped text and the same attributes as the ones the parsed
    document gives for that selector, the Playwright script builds
    exactly the record the BeautifulSoup script builds. *)
Theorem scripts_agree soup page url (Hmirror : mirrors soup page) :
  Playwright.product_data page url
  = Playwright.Ok (Soup.product_data soup url).
Proof.
  unfold Playwright.product_data, Playwright.extract_out_of_stock,
    Playwright.extract_title, Playwright.extract_price,
    Playwright.extract_availability, Playwright.extract_description,
    Playwright.extract_ships_from, Playwright.extract_sold_by.
  rewrite !(mirror_text soup page Hmirror),
    (mirror_rating soup page Hmirror), (mirror_count soup page Hmirror),
    (mirror_features soup page Hmirror), (mirror_images soup page Hmirror),
    (mirror_category soup page Hmirror).
  reflexivity.
Qed.

Lemma rated_mirror : mirrors Samples.rated_soup Samples.rated_page.
Proof.
  intros selector.
  unfold Samples.rated_soup, Samples.rated_page, Samples.soup_of,
    Samples.page_of.
  cbn [Soup.select Playwright.query_selector_all Samples.find].
  assert (Hsame : forall t, same_element (Samples.tag t []) (Samples.handle t [])).
  { intros t. split; [exists t; split; [reflexivity|] | reflexivity].
    unfold Soup.get_text, Samples.tag. cbn [Soup.strings map filter].
    destruct (strip t) eqn:E; reflexivity. }
  destruct (String.eqb selector (SELECTORS avg_rating));
    [eexists; split; [reflexivity | repeat constructor; apply Hsame]|].
  destruct (String.eqb selector (SELECTORS review_count));
    [eexists; split; [reflexivity | repeat constructor; apply Hsame]|].
  destruct (String.eqb selector (SELECTORS availability));
    [eexists; split; [reflexivity | repeat constructor; apply Hsame]|].
  eexists. split; [reflexivity | constructor].
Qed.

Lemma scripts_agree_witness :
  Playwright.product_data Samples.rated_page TARGET_URL
  = Playwright.Ok (Soup.product_data Samples.rated_soup TARGET_URL).
Proof.
  exact (scripts_agree Samples.rated_soup Samples.rated_page TARGET_URL
           rated_mirror).
Defined.

End Agreement.
